(** * Verification of the service supervisor of @astronautlabs/windows

    Shallow embedding of [src/service-container.ts] (class
    [ServiceContainer]) and of [taskKill] from [src/cmd.ts].

    Numbers.  [maxRestarts], [maxRetries], [starts], [attempts] and the
    values of [Date.now()] are integers ([Z]).  [wait] and [grow], which
    the source multiplies and adds as JavaScript numbers, are binary64
    floating-point numbers ([float]), so [wait * grow] rounds as it does
    in the source.

    Events.  The class runs inside the Node.js event loop: its methods are
    invoked by [start()], by process signals, by timers and by the [exit]
    event of a forked child.  The [Host] record below holds what that
    runtime keeps for the class (the clock, the pending timers, the
    children that are still running) together with the history of every
    observable action, and [step] dispatches one event to the listener the
    source registered for it. *)

From Stdlib Require Import ZArith NArith QArith List String Ascii Bool Lia Floats.
Import ListNotations.
Open Scope Z_scope.

(** Decimal literals such as [0.1] denote the nearest binary64 number, as
    they do in JavaScript. *)
#[local] Set Warnings "-inexact-float".

Module Container.

(** ** Data *)

(** [const MAX = 60;] *)
Definition MAX : Z := 60.

(** [(MAX * 1000) + 1], the delay of the timer that ends a window. *)
Definition window_delay : float := (60 * 1000 + 1)%float.

(** [ServiceContainerOptions]: the optional fields the policy reads. *)
Module Options.

Record t := {
  maxRetries : option Z;
  maxRestarts : option Z;
  restartDelay : option float;
  restartDelayGrowth : option float;
  abortOnError : option bool;
  stopParentFirst : option bool
}.

(** [{}]: every optional field left out. *)
Definition empty : t :=
  {| maxRetries := None; maxRestarts := None; restartDelay := None;
     restartDelayGrowth := None; abortOnError := None;
     stopParentFirst := None |}.

End Options.

(** The handle returned by [fork]; [pid] is [undefined] when no process
    could be spawned. *)
Record ChildProcess := { cid : nat; pid : option nat }.

(** The private fields of [ServiceContainer] that the policy uses. *)
Record ServiceContainer := {
  child : option ChildProcess;
  starts : Z;
  maxRestarts : Z;
  maxRetries : Z;
  abortOnError : bool;
  stopParentFirst : bool;
  wait : float;
  grow : float;
  attempts : Z;
  startTime : Z;
  forcekill : bool
}.

(** [a ?? b] *)
Definition nullish {A} (a : option A) (b : A) : A :=
  match a with Some x => x | None => b end.
Infix "??" := nullish (at level 45, left associativity).

(** The field initialisers of the class. *)
Definition new_ServiceContainer (o : Options.t) : ServiceContainer :=
  {| child := None;
     starts := 0;
     maxRestarts := Options.maxRestarts o ?? 5;
     maxRetries := Options.maxRetries o ?? (-1);
     abortOnError := Options.abortOnError o ?? false;
     stopParentFirst := Options.stopParentFirst o ?? false;
     wait := ((Options.restartDelay o ?? 1) * 1000)%float;
     grow := ((Options.restartDelayGrowth o ?? 0.25) + 1)%float;
     attempts := 0;
     startTime := 0;
     forcekill := false |}.

(** Log levels of [Logger] that [launch] accepts. *)
Inductive Level := Info | Warn | Error | AuditSuccess | AuditFailure.

(** The messages the class logs.  Interpolated values are kept as
    arguments instead of being rendered to text. *)
Inductive Msg :=
| MsgStarting                          (* 'Starting ' + script *)
| MsgProcessKilled                     (* "Process killed" *)
| MsgStopped                           (* script + ' stopped running.' *)
| MsgExitCode (code : option Z)        (* `${script} exited with error code ${code}` *)
| MsgTooManyRestarts                   (* 'Too many restarts within the last 60 seconds. ...' *)
| MsgMaxTotalRestarts                  (* `Too many restarts. ${script} will not be restarted ...` *)
| MsgRestarted (w : float) (n : Z)         (* `Restarted ${wait} msecs after unexpected exit; attempts = ${attempts}` *)
| MsgUnrecognized                      (* 'Attempted to kill an unrecognized process.' *)
| MsgError (message : string).         (* err.message *)

(** JavaScript truthiness of a message: only the empty string is falsy. *)
Definition msg_truthy (m : Msg) : bool :=
  match m with
  | MsgError EmptyString => false
  | _ => true
  end.

(** The two callbacks handed to [setTimeout]: the one in [monitor] and the
    one in [launch]. *)
Inductive TimerKind := RestartTimer | WindowTimer.

(** A pending timeout and the time, in milliseconds, at which it becomes
    due. *)
Record Timer := { kind : TimerKind; due : Z }.

(** Everything the class does to the outside, and (for [Fired]) the timer
    callbacks the runtime invokes. *)
Inductive Action :=
| Log (l : Level) (m : Msg)
| Fork (c : nat)
| Send (c : nat) (m : string)
| Kill (c : nat)
| SetTimeout (k : TimerKind) (delay : float)
| Fired (k : TimerKind)
| ProcessExit.

(** The Node.js process around the object. *)
Record Host := {
  clock : Z;                       (* the value [Date.now()] returns *)
  listening : bool;                (* [start()] has registered the process listeners *)
  exited : bool;                   (* [process.exit()] has been called *)
  alive : list nat;                (* forked children that have not exited yet *)
  nextChild : nat;
  timers : list Timer;             (* pending timeouts *)
  history : list (Z * Action)      (* newest first, stamped with [clock] *)
}.

Record World := { this : ServiceContainer; host : Host }.

Definition new_Host : Host :=
  {| clock := 0; listening := false; exited := false; alive := [];
     nextChild := 0; timers := []; history := [] |}.

(** [new ServiceContainer(options)] *)
Definition init (o : Options.t) : World :=
  {| this := new_ServiceContainer o; host := new_Host |}.

(** ** Field updates *)

Definition with_child (v : option ChildProcess) (t : ServiceContainer) :=
  {| child := v; starts := starts t; maxRestarts := maxRestarts t;
     maxRetries := maxRetries t; abortOnError := abortOnError t;
     stopParentFirst := stopParentFirst t; wait := wait t; grow := grow t;
     attempts := attempts t; startTime := startTime t;
     forcekill := forcekill t |}.

Definition with_starts (v : Z) (t : ServiceContainer) :=
  {| child := child t; starts := v; maxRestarts := maxRestarts t;
     maxRetries := maxRetries t; abortOnError := abortOnError t;
     stopParentFirst := stopParentFirst t; wait := wait t; grow := grow t;
     attempts := attempts t; startTime := startTime t;
     forcekill := forcekill t |}.

Definition with_wait (v : float) (t : ServiceContainer) :=
  {| child := child t; starts := starts t; maxRestarts := maxRestarts t;
     maxRetries := maxRetries t; abortOnError := abortOnError t;
     stopParentFirst := stopParentFirst t; wait := v; grow := grow t;
     attempts := attempts t; startTime := startTime t;
     forcekill := forcekill t |}.

Definition with_attempts (v : Z) (t : ServiceContainer) :=
  {| child := child t; starts := starts t; maxRestarts := maxRestarts t;
     maxRetries := maxRetries t; abortOnError := abortOnError t;
     stopParentFirst := stopParentFirst t; wait := wait t; grow := grow t;
     attempts := v; startTime := startTime t;
     forcekill := forcekill t |}.

Definition with_startTime (v : Z) (t : ServiceContainer) :=
  {| child := child t; starts := starts t; maxRestarts := maxRestarts t;
     maxRetries := maxRetries t; abortOnError := abortOnError t;
     stopParentFirst := stopParentFirst t; wait := wait t; grow := grow t;
     attempts := attempts t; startTime := v;
     forcekill := forcekill t |}.

Definition with_forcekill (v : bool) (t : ServiceContainer) :=
  {| child := child t; starts := starts t; maxRestarts := maxRestarts t;
     maxRetries := maxRetries t; abortOnError := abortOnError t;
     stopParentFirst := stopParentFirst t; wait := wait t; grow := grow t;
     attempts := attempts t; startTime := startTime t;
     forcekill := v |}.

Definition with_clock (v : Z) (h : Host) :=
  {| clock := v; listening := listening h; exited := exited h;
     alive := alive h; nextChild := nextChild h; timers := timers h;
     history := history h |}.

Definition with_listening (v : bool) (h : Host) :=
  {| clock := clock h; listening := v; exited := exited h;
     alive := alive h; nextChild := nextChild h; timers := timers h;
     history := history h |}.

Definition with_exited (v : bool) (h : Host) :=
  {| clock := clock h; listening := listening h; exited := v;
     alive := alive h; nextChild := nextChild h; timers := timers h;
     history := history h |}.

Definition with_alive (v : list nat) (h : Host) :=
  {| clock := clock h; listening := listening h; exited := exited h;
     alive := v; nextChild := nextChild h; timers := timers h;
     history := history h |}.

Definition with_nextChild (v : nat) (h : Host) :=
  {| clock := clock h; listening := listening h; exited := exited h;
     alive := alive h; nextChild := v; timers := timers h;
     history := history h |}.

Definition with_timers (v : list Timer) (h : Host) :=
  {| clock := clock h; listening := listening h; exited := exited h;
     alive := alive h; nextChild := nextChild h; timers := v;
     history := history h |}.

Definition with_history (v : list (Z * Action)) (h : Host) :=
  {| clock := clock h; listening := listening h; exited := exited h;
     alive := alive h; nextChild := nextChild h; timers := timers h;
     history := v |}.

Definition on_this (f : ServiceContainer -> ServiceContainer) (w : World) :=
  {| this := f (this w); host := host w |}.

Definition on_host (f : Host -> Host) (w : World) :=
  {| this := this w; host := f (host w) |}.

(** ** The monad of listener bodies

    A listener body either runs to its end ([Ret]) or stops at a
    [process.exit()] ([Exit]); both carry the world they leave behind. *)

Inductive Outcome (A : Type) :=
| Ret (a : A) (w : World)
| Exit (w : World).
Arguments Ret {A} a w.
Arguments Exit {A} w.

Definition M (A : Type) := World -> Outcome A.

Definition ret {A} (a : A) : M A := fun w => Ret a w.

Definition bind {A B} (m : M A) (k : A -> M B) : M B :=
  fun w => match m w with
           | Ret a w' => k a w'
           | Exit w' => Exit w'
           end.

Declare Scope js_scope.
Delimit Scope js_scope with js.
Notation "x <- m ;; k" := (bind m (fun x => k))
  (at level 61, m at next level, right associativity) : js_scope.
Notation "m ;; k" := (bind m (fun _ => k))
  (at level 61, right associativity) : js_scope.
Open Scope js_scope.

(** The world a listener body leaves behind. *)
Definition final {A} (r : Outcome A) : World :=
  match r with Ret _ w => w | Exit w => w end.

(** Reading the object, and assigning to it. *)
Definition get_this : M ServiceContainer := fun w => Ret (this w) w.
Definition assign (f : ServiceContainer -> ServiceContainer) : M unit :=
  fun w => Ret tt (on_this f w).

(** [Date.now()] *)
Definition Date_now : M Z := fun w => Ret (clock (host w)) w.

(** Recording an action in the history. *)
Definition emit (a : Action) : M unit :=
  fun w => Ret tt (on_host (fun h => with_history ((clock h, a) :: history h) h) w).

(** [this.log[level](msg)] *)
Definition log (l : Level) (m : Msg) : M unit := emit (Log l m).

(** [Math.trunc] of a number, as an integer. *)
Definition trunc (d : float) : Z :=
  match Prim2SF d with
  | S754_finite s m e =>
      let n := if 0 <=? e then Z.pos m * 2 ^ e else Z.pos m / 2 ^ (- e) in
      if s then - n else n
  | _ => 0
  end.

(** The milliseconds Node.js waits for a [delay] given to [setTimeout]:
    a delay larger than 2147483647, less than 1 or [NaN] is set to 1, and
    a delay that is not an integer is truncated to one. *)
Definition timeout_delay (delay : float) : Z :=
  if PrimFloat.leb 1 delay && PrimFloat.leb delay 2147483647
  then trunc delay
  else 1.

(** [setTimeout(callback, delay)]: the callback becomes due
    [timeout_delay delay] milliseconds after the current time. *)
Definition setTimeout (k : TimerKind) (delay : float) : M unit :=
  emit (SetTimeout k delay) ;;
  fun w => Ret tt (on_host (fun h =>
    with_timers (timers h ++ [{| kind := k; due := clock h + timeout_delay delay |}]) h) w).

(** [fork(this.script, this.args, {...})]: a fresh child starts running.
    The spawn is taken to succeed; a spawn that fails is reported by
    Node.js through the [error] event of the handle, for which the class
    registers no listener, and is not part of this model. *)
Definition fork : M ChildProcess :=
  fun w =>
    let c := nextChild (host w) in
    (emit (Fork c) ;;
     fun w' => Ret {| cid := c; pid := Some c |}
       (on_host (fun h => with_nextChild (S c) (with_alive (c :: alive h) h)) w')) w.

(** [child.send(msg)] and [child.kill()] *)
Definition child_send (c : ChildProcess) (m : string) : M unit := emit (Send (cid c) m).
Definition child_kill (c : ChildProcess) : M unit := emit (Kill (cid c)).

(** ** The methods of the class *)

(** [killkid()] *)
Definition killkid : M unit :=
  assign (with_forcekill true) ;;
  t <- get_this ;;
  match child t with
  | Some c =>
      if stopParentFirst t then child_send c "shutdown"
      else child_kill c
  | None => log Warn MsgUnrecognized
  end.

(** [process.exit()]: Node emits the process [exit] event, whose listener
    (registered by [start()]) is [() => this.killkid()], and the process
    ends; control never returns to the caller. *)
Definition process_exit {A} : M A :=
  fun w =>
    match (emit ProcessExit ;;
           l <- (fun w' => Ret (listening (host w')) w') ;;
           if l then killkid else ret tt) w with
    | Ret _ w' | Exit w' => Exit (on_host (with_exited true) w')
    end.

(** The callback of the [setTimeout] in [launch]. *)
Definition on_window_timer : M unit :=
  assign (with_startTime 0) ;;
  assign (with_starts 0).

(** [launch(logLevel, msg)].  [logLevel] is a non-empty literal at every
    call site, so [logLevel && msg] is the truthiness of [msg].  The [exit]
    listener attached to the new child is [on_child_exit] below; [step]
    runs it when the child exits. *)
Definition launch (logLevel : Level) (msg : Msg) : M unit :=
  t <- get_this ;;
  if forcekill t then
    log Info MsgProcessKilled
  else
    (if msg_truthy msg then log logLevel msg else ret tt) ;;
    t <- get_this ;;
    (if startTime t =? 0 then
       now <- Date_now ;;
       assign (with_startTime now) ;;
       setTimeout WindowTimer window_delay
     else ret tt) ;;
    assign (fun t => with_starts (starts t + 1) t) ;;
    c <- fork ;;
    assign (with_child (Some c)).

(** The callback of the [setTimeout] in [monitor]. *)
Definition on_restart_timer : M unit :=
  assign (fun t => with_wait (wait t * grow t)%float t) ;;
  assign (fun t => with_attempts (attempts t + 1) t) ;;
  t <- get_this ;;
  if (attempts t >? maxRetries t) && (maxRetries t >=? 0) then
    log Error MsgMaxTotalRestarts ;;
    process_exit
  else
    launch Warn (MsgRestarted (wait t) (attempts t)).

(** [!this.child || !this.child.pid] *)
Definition no_child (c : option ChildProcess) : bool :=
  match c with
  | None => true
  | Some c => match pid c with None => true | Some _ => false end
  end.

(** [monitor()] *)
Definition monitor : M unit :=
  t <- get_this ;;
  if no_child (child t) then
    (if starts t >=? maxRestarts t then
       now <- Date_now ;;
       if now - MAX * 1000 <=? startTime t then
         log Error MsgTooManyRestarts ;;
         process_exit
       else ret tt
     else ret tt) ;;
    t <- get_this ;;
    setTimeout RestartTimer (wait t)
  else
    assign (with_attempts 0) ;;
    assign (fun t => with_wait (wait t * 1000)%float t).

(** [code !== 0], where [code] is [null] when the child was ended by a
    signal. *)
Definition code_not_zero (code : option Z) : bool :=
  match code with
  | Some 0 => false
  | _ => true
  end.

(** The [exit] listener of a child. *)
Definition on_child_exit (code : option Z) : M unit :=
  log Warn MsgStopped ;;
  t <- get_this ;;
  (if code_not_zero code && abortOnError t then
     log Error (MsgExitCode code) ;;
     process_exit
   else if forcekill t then
     process_exit
   else ret tt) ;;
  assign (with_child None) ;;
  monitor.

(** [start()] *)
Definition start : M unit :=
  (fun w => Ret tt (on_host (with_listening true) w)) ;;
  launch Info MsgStarting.

(** The [uncaughtException] listener of [start()] and the [error] listener
    of the socket in [keepAlive()]: both are [launch('warn', err.message)]. *)
Definition on_error (message : string) : M unit :=
  launch Warn (MsgError message).

(** ** The event loop *)

Inductive Event :=
| EvStart                                   (* main() calls start() *)
| EvSignal                                  (* SIGINT or SIGTERM *)
| EvUncaught (message : string)             (* 'uncaughtException' *)
| EvServerError (message : string)          (* 'error' on the keep-alive server *)
| EvTimer (i : nat)                         (* the i-th pending timeout fires *)
| EvChildExit (c : nat) (code : option Z).  (* 'exit' of a running child *)

Fixpoint remove_nth {A} (i : nat) (l : list A) : list A :=
  match i, l with
  | _, [] => []
  | O, _ :: l' => l'
  | S i', x :: l' => x :: remove_nth i' l'
  end.

Definition callback (k : TimerKind) : M unit :=
  match k with
  | RestartTimer => on_restart_timer
  | WindowTimer => on_window_timer
  end.

(** One turn of the event loop at time [now].  [None] means that the event
    cannot happen in that world: the process has exited, the clock would
    run backwards, no listener is registered for it, the timer is not
    pending or not yet due, or the child is not running.  [start()] is
    called once, as [main()] does. *)
Definition step (w : World) (e : Z * Event) : option World :=
  let (now, ev) := e in
  if exited (host w) then None
  else if now <? clock (host w) then None
  else
    let w0 := on_host (with_clock now) w in
    match ev with
    | EvStart =>
        if listening (host w0) then None else Some (final (start w0))
    | EvSignal =>
        if listening (host w0) then Some (final (killkid w0)) else None
    | EvUncaught m =>
        if listening (host w0) then Some (final (on_error m w0)) else None
    | EvServerError m => Some (final (on_error m w0))
    | EvTimer i =>
        match nth_error (timers (host w0)) i with
        | Some tm =>
            if due tm <=? now then
              Some (final ((emit (Fired (kind tm)) ;; callback (kind tm))
                       (on_host (fun h => with_timers (remove_nth i (timers h)) h) w0)))
            else None
        | None => None
        end
    | EvChildExit c code =>
        if existsb (Nat.eqb c) (alive (host w0)) then
          Some (final (on_child_exit code
                  (on_host (fun h => with_alive (remove Nat.eq_dec c (alive h)) h) w0)))
        else None
    end.

Fixpoint run (w : World) (tr : list (Z * Event)) : option World :=
  match tr with
  | [] => Some w
  | e :: tr' =>
      match step w e with
      | Some w' => run w' tr'
      | None => None
      end
  end.

(** ** Observations on the history *)

(** The history in the order in which it happened. *)
Definition chronicle (w : World) : list (Z * Action) := rev (history (host w)).

Definition is_fork (a : Action) : bool :=
  match a with Fork _ => true | _ => false end.

(** How many children have been forked so far. *)
Definition forks (w : World) : nat :=
  List.length (filter (fun e => is_fork (snd e)) (history (host w))).

End Container.

Module Js.

(** ** JavaScript strings

    A string is its sequence of UTF-16 code units. *)
Definition jsstring := list N.

(** An ASCII literal of the source. *)
Definition lit (s : string) : jsstring :=
  map N_of_ascii (list_ascii_of_string s).

Fixpoint eqb (a b : jsstring) : bool :=
  match a, b with
  | [], [] => true
  | x :: a', y :: b' => (x =? y)%N && eqb a' b'
  | _, _ => false
  end.

Fixpoint starts_with (p s : jsstring) : bool :=
  match p, s with
  | [], _ => true
  | x :: p', y :: s' => (x =? y)%N && starts_with p' s'
  | _ :: _, [] => false
  end.

(** [s.includes(p)] *)
Fixpoint includes (p s : jsstring) : bool :=
  starts_with p s ||
  match s with
  | [] => false
  | _ :: s' => includes p s'
  end.

(** The code units [trim()] removes: WhiteSpace and LineTerminator of
    ECMAScript. *)
Definition is_whitespace (c : N) : bool :=
  ((9 <=? c) && (c <=? 13) || (c =? 32) || (c =? 160) || (c =? 5760) ||
   (8192 <=? c) && (c <=? 8202) || (c =? 8232) || (c =? 8233) ||
   (c =? 8239) || (c =? 8287) || (c =? 12288) || (c =? 65279))%N.

Fixpoint trimStart (s : jsstring) : jsstring :=
  match s with
  | [] => []
  | c :: s' => if is_whitespace c then trimStart s' else s
  end.

(** [s.trim()] *)
Definition trim (s : jsstring) : jsstring :=
  rev (trimStart (rev (trimStart s))).

Definition cons_head (c : N) (l : list jsstring) : list jsstring :=
  match l with
  | [] => [[c]]
  | x :: xs => (c :: x) :: xs
  end.

(** [s.split(sep)] for a separator of one code unit. *)
Fixpoint split_char (sep : N) (s : jsstring) : list jsstring :=
  match s with
  | [] => [[]]
  | c :: s' =>
      if (c =? sep)%N then [] :: split_char sep s'
      else cons_head c (split_char sep s')
  end.

(** [s.split('\r\n')] *)
Fixpoint split_crlf (s : jsstring) : list jsstring :=
  match s with
  | [] => [[]]
  | c :: s' =>
      match s' with
      | d :: s'' =>
          if (c =? 13)%N && (d =? 10)%N then [] :: split_crlf s''
          else cons_head c (split_crlf s')
      | [] => cons_head c (split_crlf s')
      end
  end.

(** [line.replace(...)] with the pattern of a double quote followed by a
    comma and the replacement of a double quote followed by a semicolon
    (code units 34 44 and 34 59). *)
Fixpoint replace_quote_comma (s : jsstring) : jsstring :=
  match s with
  | [] => []
  | c :: s' =>
      match s' with
      | d :: s'' =>
          if (c =? 34)%N && (d =? 44)%N
          then 34%N :: 59%N :: replace_quote_comma s''
          else c :: replace_quote_comma s'
      | [] => c :: replace_quote_comma s'
      end
  end.

(** [s.replace(...)] that deletes every double quote and every single
    quote (code units 34 and 39). *)
Definition remove_quotes (s : jsstring) : jsstring :=
  filter (fun c => negb ((c =? 34) || (c =? 39))%N) s.

(** [s.replace(/ /gi, '')] *)
Definition remove_spaces (s : jsstring) : jsstring :=
  filter (fun c => negb (c =? 32)%N) s.

(** [msg.replace(/\r\n|\n\r|\r|\n/g, ...)] with a form feed (code unit
    12) as the replacement. *)
Fixpoint replace_newlines (s : jsstring) : jsstring :=
  match s with
  | [] => []
  | c :: s' =>
      if (c =? 13)%N then
        match s' with
        | d :: s'' =>
            if (d =? 10)%N then 12%N :: replace_newlines s''
            else 12%N :: replace_newlines s'
        | [] => 12%N :: replace_newlines s'
        end
      else if (c =? 10)%N then
        match s' with
        | d :: s'' =>
            if (d =? 13)%N then 12%N :: replace_newlines s''
            else 12%N :: replace_newlines s'
        | [] => 12%N :: replace_newlines s'
        end
      else c :: replace_newlines s'
  end.

(** An object used as a dictionary from strings to strings: the
    assignments made so far, newest first. *)
Definition object := list (jsstring * jsstring).

(** [o[key] = value].  Assigning a string to the key
    [__proto__] leaves an object as it is. *)
Definition set (key value : jsstring) (o : object) : object :=
  if eqb key (lit "__proto__") then o else (key, value) :: o.

(** [o[key]] for a key that [Object.prototype] does not define;
    [None] is [undefined]. *)
Fixpoint get (key : jsstring) (o : object) : option jsstring :=
  match o with
  | [] => None
  | (k, v) :: o' => if eqb key k then Some v else get key o'
  end.

End Js.

Module Cmd.

(** ** [taskKill] of [src/cmd.ts] *)

(** A JavaScript [number]; [-0] is identified with [0]. *)
Inductive number :=
| NaN
| Infinity (negative : bool)
| Finite (q : Q).

(** [ToBoolean] on a number: [0] and [NaN] are falsy. *)
Definition truthy (n : number) : bool :=
  match n with
  | NaN => false
  | Infinity _ => true
  | Finite q => negb (Qeq_bool q 0)
  end.

(** The global [isNaN]. *)
Definition isNaN (n : number) : bool :=
  match n with
  | NaN => true
  | _ => false
  end.

(** [typeof b] for a boolean [b]. *)
Definition typeof_boolean (b : bool) : string := "boolean".

(** [ToBoolean] on a string: only the empty string is falsy. *)
Definition truthy_string (s : string) : bool :=
  match s with
  | EmptyString => false
  | String _ _ => true
  end.

(** What a call does: it throws (the promise of the [async] function is
    rejected with that error), or it reaches
    [exec(`taskkill /PID ${pid}${force ? ' /f' : ''}`)]. *)
Inductive Result :=
| Throws (message : string)
| Execs (pid : number) (force : bool).

Definition taskKill (pid : number) (force : bool) : Result :=
  if negb (truthy pid) then
    Throws "PID is required for the kill operation."
  else if truthy_string (typeof_boolean (isNaN pid)) then
    Throws "PID must be a number."
  else
    Execs pid force.

(** ** [taskList] of [src/cmd.ts] *)

(** What [await exec(cmd)] of [src/exec.ts] yields: the two outputs, or the
    error the promise was rejected with. *)
Inductive ExecOutcome :=
| Resolved (stdout stderr : Js.jsstring)
| Rejected (message : Js.jsstring).

Record VerboseFields := {
  status : option Js.jsstring;
  userName : option Js.jsstring;
  cpuTime : option Js.jsstring;
  windowTitle : option Js.jsstring
}.

(** [Win32Process]; [verboseFields] holds the four properties that
    [VerboseWin32Process] adds.  A property is [None] when it is
    [undefined]. *)
Record Win32Process := {
  imageName : option Js.jsstring;
  memUsage : option Js.jsstring;
  pid : number;
  sessionName : option Js.jsstring;
  sessionNumber : number;
  verboseFields : option VerboseFields
}.

(** The command [taskList] runs. *)
Definition taskList_command (verbose : bool) : Js.jsstring :=
  Js.lit "tasklist /FO CSV " ++ (if verbose then Js.lit "/V" else []).

(** [values]: the line after its two [replace] calls, split at [;]. *)
Definition line_values (line : Js.jsstring) : list Js.jsstring :=
  Js.split_char 59 (Js.remove_quotes (Js.replace_quote_comma line)).

(** The loop [for (i = 0; i < values.length; i++) record[header[i]] = ...];
    [header[i]] is [undefined], hence the key [undefined], past the end of
    [header]. *)
Fixpoint fill_record (header values : list Js.jsstring) (record : Js.object)
  : Js.object :=
  match values with
  | [] => record
  | v :: values' =>
      fill_record (tl header) values'
        (Js.set (hd (Js.lit "undefined") header) (Js.remove_quotes v) record)
  end.

Section TaskList.

(** [Number(x)] of JavaScript, applied to a string or to [undefined]. *)
Variable Number : option Js.jsstring -> number.

(** The object pushed to [proc]. *)
Definition process_of (verbose : bool) (record : Js.object) : Win32Process :=
  {| imageName := Js.get (Js.lit "ImageName") record;
     memUsage := Js.get (Js.lit "MemUsage") record;
     pid := Number (Js.get (Js.lit "PID") record);
     sessionName := Js.get (Js.lit "SessionName") record;
     sessionNumber := Number (Js.get (Js.lit "Session#") record);
     verboseFields :=
       if verbose then
         Some {| status := Js.get (Js.lit "Status") record;
                 userName := Js.get (Js.lit "UserName") record;
                 cpuTime := Js.get (Js.lit "CPUTime") record;
                 windowTitle := Js.get (Js.lit "WindowTitle") record |}
       else None |}.

(** The [while (p.length > 1)] loop; [header] is [None] while it is
    [null]. *)
Fixpoint taskList_loop (verbose : bool) (header : option (list Js.jsstring))
    (p : list Js.jsstring) : list Win32Process :=
  match p with
  | [] => []
  | line :: p' =>
      match p' with
      | [] => []
      | _ :: _ =>
          match header with
          | None =>
              taskList_loop verbose
                (Some (map Js.remove_spaces (line_values line))) p'
          | Some h =>
              process_of verbose (fill_record h (line_values line) [])
                :: taskList_loop verbose header p'
          end
      end
  end.

(** [taskList(verbose)], given what [exec] yields for its command. *)
Definition taskList (exec : Js.jsstring -> ExecOutcome) (verbose : bool)
  : Js.jsstring + list Win32Process :=
  match exec (taskList_command verbose) with
  | Resolved stdout _ =>
      inr (taskList_loop verbose None (Js.split_crlf stdout))
  | Rejected e => inl e
  end.

End TaskList.

End Cmd.

Module EventLog.

(** ** [Logger] of [src/eventlog.ts] *)

Inductive EventLogName := APPLICATION | SYSTEM.

Inductive EntryType :=
| ERROR | WARNING | INFORMATION | SUCCESSAUDIT | FAILUREAUDIT.

Definition EventLogName_text (l : EventLogName) : Js.jsstring :=
  match l with
  | APPLICATION => Js.lit "APPLICATION"
  | SYSTEM => Js.lit "SYSTEM"
  end.

Definition EntryType_text (t : EntryType) : Js.jsstring :=
  match t with
  | ERROR => Js.lit "ERROR"
  | WARNING => Js.lit "WARNING"
  | INFORMATION => Js.lit "INFORMATION"
  | SUCCESSAUDIT => Js.lit "SUCCESSAUDIT"
  | FAILUREAUDIT => Js.lit "FAILUREAUDIT"
  end.

Record LoggerConfig := { source : Js.jsstring; eventLog : EventLogName }.

(** The constructor: the defaults, overridden by the fields given. *)
Definition new_Logger (source' : option Js.jsstring)
    (eventLog' : option EventLogName) : LoggerConfig :=
  {| source := match source' with Some s => s | None => Js.lit "Node.js" end;
     eventLog := match eventLog' with Some l => l | None => APPLICATION end |}.

(** A value caught by [catch (e)]: an [Error] with its message, or
    anything else. *)
Inductive Thrown :=
| ErrorObject (message : Js.jsstring)
| OtherValue.

(** The shell commands a call hands to the operating system: through
    [exec] of [node:child_process], or through [elevate] of
    [src/binaries.ts]. *)
Inductive Issued :=
| Exec (cmd : Js.jsstring)
| Elevate (cmd : Js.jsstring).

(** What the promise of [log] settles to: resolved, or rejected with a
    caught value. *)
Inductive Settled :=
| Fulfilled
| RejectedWith (e : Thrown).

Section Logger.

(** [`${id}`] for a number. *)
Variable NumberToString : Cmd.number -> Js.jsstring.

(** [exec] of [node:child_process], which [eventlog.ts] imports: it
    returns a handle at once ([None]) or throws ([Some e]). *)
Variable exec : Js.jsstring -> option Thrown.

(** The promise of [elevate(cmd)]: fulfilled ([None]) or rejected. *)
Variable elevate : Js.jsstring -> option Thrown.

Variable config : LoggerConfig.

(** The template literal of [log]. *)
Definition eventcreate (type : EntryType) (msg : Js.jsstring)
    (id : Cmd.number) : Js.jsstring :=
  Js.lit "eventcreate /L " ++ EventLogName_text (eventLog config) ++
  Js.lit " /T " ++ EntryType_text type ++
  Js.lit " /SO " ++ [34%N] ++ source config ++ [34%N] ++
  Js.lit " /D " ++ [34%N] ++ msg ++ [34%N] ++
  Js.lit " /ID " ++ NumberToString id.

(** [log(type, msg, id)]: the commands issued, in order, and how the
    promise settles. *)
Definition log (type : EntryType) (msg : Js.jsstring) (id : Cmd.number)
  : list Issued * Settled :=
  if (List.length (Js.trim msg) =? 0)%nat then ([], Fulfilled)
  else
    let cmd := eventcreate type (Js.replace_newlines msg) id in
    match exec cmd with
    | None => ([Exec cmd], Fulfilled)
    | Some e =>
        match e with
        | ErrorObject m =>
            if Js.includes (Js.lit "Access is denied") m then
              match elevate cmd with
              | None => ([Exec cmd; Elevate cmd], Fulfilled)
              | Some e' => ([Exec cmd; Elevate cmd], RejectedWith e')
              end
            else ([Exec cmd], RejectedWith e)
        | OtherValue => ([Exec cmd], RejectedWith e)
        end
    end.

(** [id = 1000] *)
Definition default_id : Cmd.number := Cmd.Finite 1000.

Definition info (message : Js.jsstring) := log INFORMATION message default_id.
Definition error (message : Js.jsstring) := log ERROR message default_id.
Definition warn (message : Js.jsstring) := log WARNING message default_id.
Definition auditSuccess (message : Js.jsstring) :=
  log SUCCESSAUDIT message default_id.
Definition auditFailure (message : Js.jsstring) :=
  log FAILUREAUDIT message default_id.

End Logger.

End EventLog.

Import Container.

(** * Observations on executions *)

Definition is_kill_message (a : Action) : bool :=
  match a with Log _ MsgProcessKilled => true | _ => false end.

(** How many times "Process killed" has been logged. *)
Definition kill_messages (w : World) : nat :=
  List.length (filter (fun e => is_kill_message (snd e)) (history (host w))).

Definition is_abort_message (a : Action) : bool :=
  match a with Log Error (MsgExitCode _) => true | _ => false end.

(** How many times "... exited with error code ..." has been logged. *)
Definition abort_messages (w : World) : nat :=
  List.length (filter (fun e => is_abort_message (snd e)) (history (host w))).

Definition is_restart (a : Action) : bool :=
  match a with Log Warn (MsgRestarted _ _) => true | _ => false end.

(** The restarts (launches by the restart timer, each logged as
    "Restarted ...") stamped in the interval from [a] to [b], [b] excluded. *)
Definition restarts_between (a b : Z) (w : World) : nat :=
  List.length
    (filter (fun e => is_restart (snd e) && (a <=? fst e) && (fst e <? b))
       (history (host w))).

(** The launches since the window timer last fired (all of them when it
    never did), read off a history, newest entry first. *)
Fixpoint launches_since_reset (h : list (Z * Action)) : nat :=
  match h with
  | [] => 0
  | (_, Fired WindowTimer) :: _ => 0
  | (_, Fork _) :: h' => S (launches_since_reset h')
  | _ :: h' => launches_since_reset h'
  end.

Definition is_restart_firing (a : Action) : bool :=
  match a with Fired RestartTimer => true | _ => false end.

(** How many times the restart timer has fired. *)
Definition restart_cycles (w : World) : nat :=
  List.length (filter (fun e => is_restart_firing (snd e)) (history (host w))).






Definition is_restart_timer (tm : Timer) : bool :=
  match kind tm with RestartTimer => true | WindowTimer => false end.

(** How many restart timers are pending. *)
Definition restarts_pending (w : World) : nat :=
  List.length (filter is_restart_timer (timers (host w))).

Definition is_error_event (e : Event) : bool :=
  match e with
  | EvUncaught _ | EvServerError _ => true
  | _ => false
  end.

(** A trace in which no [uncaughtException] and no server [error] occurs. *)
Definition quiet (tr : list (Z * Event)) : bool :=
  forallb (fun e => negb (is_error_event (snd e))) tr.

(** What holds of the world after an event, when the event can happen. *)
Definition after_step (w : World) (e : Z * Event) (P : World -> Prop) : Prop :=
  match step w e with Some w' => P w' | None => True end.

(** The world a trace leads to from a fresh object. *)
Definition world_after (o : Options.t) (tr : list (Z * Event)) : World :=
  match run (init o) tr with Some w => w | None => init o end.

(** [this.child] is the handle of the one running child, or [null] when
    none runs. *)
Definition handle_agrees (w : World) : Prop :=
  match child (this w) with
  | Some c => alive (host w) = [cid c]
  | None => alive (host w) = []
  end.

(** The invariant of quiet executions: a running child and a pending
    restart exclude each other, and nothing runs before [start()]. *)
Definition single_child (w : World) : Prop :=
  (List.length (alive (host w)) + restarts_pending w <= 1)%nat /\
  (listening (host w) = false ->
   alive (host w) = [] /\ restarts_pending w = 0%nat) /\
  (exited (host w) = false -> handle_agrees w).

(** ** Scenarios *)

(** [{maxRetries: 2, maxRestarts: 5, restartDelay: 1, restartDelayGrowth: 0}] *)
Definition scenario_A : Options.t :=
  {| Options.maxRetries := Some 2; Options.maxRestarts := Some 5;
     Options.restartDelay := Some 1%float;
     Options.restartDelayGrowth := Some 0%float;
     Options.abortOnError := None; Options.stopParentFirst := None |}.

(** Three children in a row exit with code 1 a tenth of a second after
    they were started; every restart timer fires when it is due. *)
Definition three_rapid_exits : list (Z * Event) :=
  [ (1000, EvStart);
    (1100, EvChildExit 0%nat (Some 1)); (2100, EvTimer 1%nat);
    (2200, EvChildExit 1%nat (Some 1)); (3200, EvTimer 1%nat);
    (3300, EvChildExit 2%nat (Some 1)); (4300, EvTimer 1%nat) ].

(** [{maxRestarts: 2, restartDelayGrowth: 0}] *)
Definition two_per_window : Options.t :=
  {| Options.maxRetries := None; Options.maxRestarts := Some 2;
     Options.restartDelay := None;
     Options.restartDelayGrowth := Some 0%float;
     Options.abortOnError := None; Options.stopParentFirst := None |}.

(** The first child runs for almost a minute; the next three exit a tenth
    of a second after they were started.  Every timer fires when it is
    due; the window timer of the first launch fires in between, at
    1060001. *)
Definition exits_around_reset : list (Z * Event) :=
  [ (1000000, EvStart);
    (1058900, EvChildExit 0%nat (Some 1)); (1059900, EvTimer 1%nat);
    (1060001, EvTimer 0%nat);
    (1060100, EvChildExit 1%nat (Some 1)); (1061100, EvTimer 0%nat);
    (1061200, EvChildExit 2%nat (Some 1)); (1062200, EvTimer 1%nat);
    (1062300, EvChildExit 3%nat (Some 1)) ].

(** One failure and restart, after which the second child is still
    running when the window timer fires at 61001. *)
Definition one_failure_then_stable : list (Z * Event) :=
  [ (1000, EvStart);
    (2000, EvChildExit 0%nat (Some 1)); (3000, EvTimer 1%nat);
    (61001, EvTimer 0%nat) ].


(** An [uncaughtException] forks a second child, which exits; the first
    child keeps running. *)
Definition second_child_exits : list (Z * Event) :=
  [ (1000, EvStart); (2000, EvUncaught "boom");
    (2500, EvChildExit 1%nat (Some 1)) ].



(** A shutdown signal while the first child runs. *)
Definition signal_while_running : list (Z * Event) :=
  [ (1000, EvStart); (2000, EvSignal) ].


(** ** Further observations *)

(** How many restarts have been logged. *)
Definition restart_count (w : World) : nat :=
  List.length (filter (fun e => is_restart (snd e)) (history (host w))).

Definition is_signal (e : Event) : bool :=
  match e with EvSignal => true | _ => false end.

(** A trace in which no SIGINT and no SIGTERM is delivered. *)
Definition unsignalled (tr : list (Z * Event)) : bool :=
  forallb (fun e => negb (is_signal (snd e))) tr.

(** The three error messages that precede a [process.exit()]. *)
Definition is_fatal (m : Msg) : bool :=
  match m with
  | MsgExitCode _ | MsgTooManyRestarts | MsgMaxTotalRestarts => true
  | _ => false
  end.

(** The history ends with [process.exit()] called right after an error
    of the three kinds was logged, followed at most by the one action of
    the [exit] listener. *)
Definition exit_explained (h : list (Z * Action)) : bool :=
  match h with
  | (_, ProcessExit) :: (_, Log Error m) :: _ => is_fatal m
  | _ :: (_, ProcessExit) :: (_, Log Error m) :: _ => is_fatal m
  | _ => false
  end.

Definition is_kill (a : Action) : bool :=
  match a with Kill _ => true | _ => false end.

Definition is_send (a : Action) : bool :=
  match a with Send _ _ => true | _ => false end.

Definition is_window_timer (tm : Timer) : bool :=
  match kind tm with WindowTimer => true | RestartTimer => false end.

(** The due times of the pending window timers. *)
Definition window_dues (w : World) : list Z :=
  map due (filter is_window_timer (timers (host w))).

(** A window is open exactly when its reset is pending. *)
Definition window_consistent (w : World) : Prop :=
  if startTime (this w) =? 0
  then window_dues w = [] /\ starts (this w) = 0
  else window_dues w =
       [ startTime (this w) + (MAX * 1000 + 1) ].

(** A trace whose events all happen at a positive [Date.now()]. *)
Definition positive_times (tr : list (Z * Event)) : bool :=
  forallb (fun e => 0 <? fst e) tr.

(** [{maxRestarts: 0}] *)
Definition no_restarts : Options.t :=
  {| Options.maxRetries := None; Options.maxRestarts := Some 0;
     Options.restartDelay := None; Options.restartDelayGrowth := None;
     Options.abortOnError := None; Options.stopParentFirst := None |}.


(** ** The output of [tasklist /FO CSV] *)

(** A field that survives the parsing of [taskList] unchanged: no double
    quote, single quote, semicolon or carriage return in it, and no comma
    at its start. *)
Definition plain (f : Js.jsstring) : bool :=
  forallb (fun c => negb ((c =? 34) || (c =? 39) || (c =? 59) || (c =? 13))%N) f
  && negb (Js.starts_with [44%N] f).

(** A CSV line: every field between double quotes, commas in between. *)
Fixpoint csv_line (fields : list Js.jsstring) : Js.jsstring :=
  match fields with
  | [] => []
  | f :: fields' =>
      34%N :: f ++ 34%N ::
      match fields' with
      | [] => []
      | _ :: _ => 44%N :: csv_line fields'
      end
  end.

(** The lines, each ended by CR LF. *)
Definition csv_output (lines : list (list Js.jsstring)) : Js.jsstring :=
  List.concat (map (fun l => csv_line l ++ [13%N; 10%N]) lines).

(** One process as [tasklist] reports it. *)
Record TaskRow := {
  row_imageName : Js.jsstring;
  row_pid : Js.jsstring;
  row_sessionName : Js.jsstring;
  row_sessionNumber : Js.jsstring;
  row_memUsage : Js.jsstring;
  row_status : Js.jsstring;
  row_userName : Js.jsstring;
  row_cpuTime : Js.jsstring;
  row_windowTitle : Js.jsstring
}.

(** The column titles of [tasklist], without and with [/V]. *)
Definition tasklist_header (verbose : bool) : list Js.jsstring :=
  [ Js.lit "Image Name"; Js.lit "PID"; Js.lit "Session Name";
    Js.lit "Session#"; Js.lit "Mem Usage" ] ++
  (if verbose
   then [ Js.lit "Status"; Js.lit "User Name"; Js.lit "CPU Time";
          Js.lit "Window Title" ]
   else []).

Definition row_fields (verbose : bool) (r : TaskRow) : list Js.jsstring :=
  [ row_imageName r; row_pid r; row_sessionName r; row_sessionNumber r;
    row_memUsage r ] ++
  (if verbose
   then [ row_status r; row_userName r; row_cpuTime r; row_windowTitle r ]
   else []).

(** What [tasklist] prints for the processes [rows]. *)
Definition tasklist_output (verbose : bool) (rows : list TaskRow) : Js.jsstring :=
  csv_output (tasklist_header verbose :: map (row_fields verbose) rows).

Definition plain_row (verbose : bool) (r : TaskRow) : bool :=
  forallb plain (row_fields verbose r).

(** The object [taskList] should return for a row. *)
Definition process_of_row (Number : option Js.jsstring -> Cmd.number)
    (verbose : bool) (r : TaskRow) : Cmd.Win32Process :=
  {| Cmd.imageName := Some (row_imageName r);
     Cmd.memUsage := Some (row_memUsage r);
     Cmd.pid := Number (Some (row_pid r));
     Cmd.sessionName := Some (row_sessionName r);
     Cmd.sessionNumber := Number (Some (row_sessionNumber r));
     Cmd.verboseFields :=
       if verbose then
         Some {| Cmd.status := Some (row_status r);
                 Cmd.userName := Some (row_userName r);
                 Cmd.cpuTime := Some (row_cpuTime r);
                 Cmd.windowTitle := Some (row_windowTitle r) |}
       else None |}.

(** No code unit [u] occurs in [f]. *)
Definition no_unit (u : N) (f : Js.jsstring) : Prop :=
  forallb (fun c => negb (c =? u)%N) f = true.

(** The fields joined by semicolons. *)
Fixpoint join_fields (fields : list Js.jsstring) : Js.jsstring :=
  match fields with
  | [] => []
  | f :: fields' =>
      f ++ match fields' with
           | [] => []
           | _ :: _ => 59%N :: join_fields fields'
           end
  end.


(** The example of the README. *)
Definition readme_row : TaskRow :=
  {| row_imageName := Js.lit "cmd.exe";
     row_pid := Js.lit "12440";
     row_sessionName := Js.lit "Console";
     row_sessionNumber := Js.lit "1";
     row_memUsage := Js.lit "1,736 K";
     row_status := Js.lit "Running";
     row_userName := Js.lit "SYSTEM";
     row_cpuTime := Js.lit "0:00:01";
     row_windowTitle := Js.lit "Command Prompt" |}.

(** ** Messages of the event log *)

(** A carriage return or a line feed. *)
Definition is_line_break (c : N) : bool := ((c =? 13) || (c =? 10))%N.


(** * Proof tools *)

Ltac js_unfold :=
  unfold callback, on_error, start, on_child_exit, on_restart_timer,
    on_window_timer, monitor, launch, process_exit, killkid, setTimeout,
    fork, child_send, child_kill, log, emit, assign, get_this, Date_now,
    bind, ret, final, on_this, on_host, with_child, with_starts, with_wait,
    with_attempts, with_startTime, with_forcekill, with_clock,
    with_listening, with_exited, with_alive, with_nextChild, with_timers,
    with_history in *.

(** The delay Node.js derives stays folded in symbolic steps. *)
Arguments timeout_delay : simpl never.
Arguments window_delay : simpl never.

(** Split a world into its fields. *)
Ltac js_open w :=
  destruct w as [[? ? ? ? ? ? ? ? ? ? ?] [? ? ? ? ? ? ?]].

(** Case analysis on the innermost test of the goal. *)
Ltac js_simple x :=
  lazymatch x with
  | context [match _ with _ => _ end] => fail
  | _ => idtac
  end.

Ltac js_case :=
  match goal with
  | |- context [match ?x with _ => _ end] => js_simple x; destruct x eqn:?
  end.

Ltac js_cases := repeat (js_case; cbn in *).

(** Closed facts about concrete executions, settled by evaluation. *)
Ltac evaluate :=
  repeat match goal with |- _ /\ _ => split end; vm_compute; reflexivity.

(** ** Executions *)

Lemma run_app (tr1 tr2 : list (Z * Event)) (w : World) :
  run w (tr1 ++ tr2) =
  match run w tr1 with Some w' => run w' tr2 | None => None end.
Proof.
  revert w. induction tr1 as [|e tr1 IH]; intro w; simpl.
  - reflexivity.
  - destruct (step w e); auto.
Qed.

Lemma after_step_elim (w w' : World) (e : Z * Event) (P : World -> Prop) :
  after_step w e P -> step w e = Some w' -> P w'.
Proof. unfold after_step. intros H E. rewrite E in H. exact H. Qed.

(** A property kept by every step holds along every execution. *)
Lemma run_invariant (P : World -> Prop) :
  (forall w e, P w -> after_step w e P) ->
  forall tr w w', P w -> run w tr = Some w' -> P w'.
Proof.
  intros Hstep tr. induction tr as [|e tr IH]; simpl; intros w w' HP Hrun.
  - congruence.
  - destruct (step w e) as [w1|] eqn:E; [|discriminate].
    eapply IH; [|exact Hrun]. eapply after_step_elim; eauto.
Qed.

(** The same along quiet traces. *)
Lemma run_invariant_quiet (P : World -> Prop) :
  (forall w e, P w -> is_error_event (snd e) = false -> after_step w e P) ->
  forall tr w w', P w -> quiet tr = true -> run w tr = Some w' -> P w'.
Proof.
  intros Hstep tr. induction tr as [|e tr IH]; simpl; intros w w' HP Hq Hrun.
  - congruence.
  - apply andb_true_iff in Hq. destruct Hq as [He Hq].
    apply negb_true_iff in He.
    destruct (step w e) as [w1|] eqn:E; [|discriminate].
    eapply IH; [|exact Hq|exact Hrun]. eapply after_step_elim; eauto.
Qed.

(** No event is processed after [process.exit()]. *)
Lemma step_exited (w : World) (e : Z * Event) :
  exited (host w) = true -> step w e = None.
Proof. intro H. destruct e. unfold step. rewrite H. reflexivity. Qed.

(** * Shutdown: [forcekill] and [killkid] *)

(** Once [forcekill] is set it stays set, and no event forks a child. *)
Lemma step_forcekill (w : World) (e : Z * Event) :
  forcekill (this w) = true ->
  after_step w e (fun w' => forcekill (this w') = true /\ forks w' = forks w).
Proof.
  intros Hk. js_open w. destruct e as [now ev]. cbn in Hk. subst.
  unfold after_step, step, forks.
  destruct ev; js_unfold; cbn.
  all: js_cases; auto.
Qed.

Lemma run_forcekill (tr : list (Z * Event)) (w w' : World) :
  forcekill (this w) = true -> run w tr = Some w' ->
  forcekill (this w') = true /\ forks w' = forks w.
Proof.
  intros Hk Hrun.
  apply (run_invariant
           (fun x => forcekill (this x) = true /\ forks x = forks w))
    with (tr := tr) (w := w); auto.
  intros x e [Hx Hf].
  generalize (step_forcekill x e Hx). unfold after_step.
  destruct (step x e); [|trivial]. intros [H1 H2]. split; congruence.
Qed.

(** While [forcekill] is set, the [exit] listener ends the process; it
    forks nothing, schedules nothing and does not log "Process killed". *)
Lemma exit_while_forcekill (w : World) (t : Z) (c : nat) (code : option Z) :
  forcekill (this w) = true ->
  after_step w (t, EvChildExit c code) (fun w' =>
    exited (host w') = true /\ forks w' = forks w /\
    timers (host w') = timers (host w) /\
    kill_messages w' = kill_messages w).
Proof.
  intros Hk. js_open w. cbn in Hk. subst.
  unfold after_step, step, forks, kill_messages.
  js_unfold; cbn.
  js_cases; auto.
Qed.

(** "Process killed" is what [launch] logs, instead of forking, when
    [forcekill] is set. *)
Lemma launch_while_forcekill (w : World) (l : Level) (m : Msg) :
  forcekill (this w) = true -> launch l m w = log Info MsgProcessKilled w.
Proof.
  intros Hk. unfold launch, bind, get_this. rewrite Hk. reflexivity.
Qed.

(** C1, as stated, fails: the child exits after a shutdown signal; the
    process ends, but "Process killed" is not among the messages logged. *)
Lemma exit_after_signal_logs_no_kill_message :
  forcekill (this (world_after Options.empty signal_while_running)) = true /\
  step (world_after Options.empty signal_while_running)
       (3000, EvChildExit 0%nat None) =
    Some (world_after Options.empty
            (signal_while_running ++ [ (3000, EvChildExit 0%nat None) ])) /\
  exited (host (world_after Options.empty
            (signal_while_running ++ [ (3000, EvChildExit 0%nat None) ]))) = true /\
  kill_messages (world_after Options.empty
            (signal_while_running ++ [ (3000, EvChildExit 0%nat None) ])) = 0%nat /\
  chronicle (world_after Options.empty
            (signal_while_running ++ [ (3000, EvChildExit 0%nat None) ])) =
    [ (1000, Log Info MsgStarting);
      (1000, SetTimeout WindowTimer 60001%float);
      (1000, Fork 0%nat);
      (2000, Kill 0%nat);
      (3000, Log Warn MsgStopped);
      (3000, ProcessExit);
      (3000, Kill 0%nat) ].
Proof. evaluate. Qed.

(** C1, amended: while [forcekill] is set, (1) every exit event ends the
    process without forking, without scheduling a restart and without
    logging "Process killed", whatever the exit code and [abortOnError];
    (2) every call of [launch] only logs "Process killed"; (3) along every
    continuation of the execution [forcekill] stays set and no child is
    forked. *)
Theorem no_launch_after_forcekill (w : World) :
  forcekill (this w) = true ->
  (forall t c code w',
     step w (t, EvChildExit c code) = Some w' ->
     exited (host w') = true /\ forks w' = forks w /\
     timers (host w') = timers (host w) /\
     kill_messages w' = kill_messages w) /\
  (forall l m, launch l m w = log Info MsgProcessKilled w) /\
  (forall tr w',
     run w tr = Some w' -> forcekill (this w') = true /\ forks w' = forks w).
Proof.
  intro Hk. split; [|split].
  - intros t c code w' Hs.
    exact (after_step_elim _ _ _ _ (exit_while_forcekill w t c code Hk) Hs).
  - intros l m. apply launch_while_forcekill, Hk.
  - intros tr w'. apply run_forcekill, Hk.
Qed.

Lemma no_launch_after_forcekill_witness :
  forcekill (this (world_after Options.empty signal_while_running)) = true /\
  forall tr w',
    run (world_after Options.empty signal_while_running) tr = Some w' ->
    forcekill (this w') = true /\
    forks w' = forks (world_after Options.empty signal_while_running).
Proof.
  split; [vm_compute; reflexivity|].
  apply (no_launch_after_forcekill
           (world_after Options.empty signal_while_running)).
  vm_compute; reflexivity.
Defined.

(** [killkid] returns normally, sets [forcekill], changes nothing else
    in the object or the process, and performs exactly one action: with a
    child handle, the shutdown message when [stopParentFirst] is set and
    [kill()] when it is not; without one, the warning. *)
Lemma killkid_request (w : World) :
  exists a,
    killkid w =
      Ret tt {| this := with_forcekill true (this w);
                host := with_history
                          ((clock (host w), a) :: history (host w)) (host w) |}
    /\ match child (this w) with
       | Some c => if stopParentFirst (this w)
                   then a = Send (cid c) "shutdown" else a = Kill (cid c)
       | None => a = Log Warn MsgUnrecognized
       end.
Proof.
  js_open w. js_unfold. cbn.
  js_cases; eexists; split; reflexivity.
Qed.

(** C8, as stated, fails: a second signal while the child is still
    running calls [kill()] on it a second time. *)
Lemma second_signal_kills_again :
  option_map chronicle
    (run (init Options.empty)
       [ (1000, EvStart); (2000, EvSignal); (2001, EvSignal) ]) =
  Some [ (1000, Log Info MsgStarting);
         (1000, SetTimeout WindowTimer 60001%float);
         (1000, Fork 0%nat);
         (2000, Kill 0%nat);
         (2001, Kill 0%nat) ].
Proof. evaluate. Qed.

(** C8, amended: a repeated request leaves the object as the first one
    left it, with [forcekill] set, and leaves the timers, the children and
    the process untouched; but it repeats the action of the first request
    (the kill, the shutdown message or the warning). *)
Theorem repeated_request (w : World) :
  exists a w1 w2,
    killkid w = Ret tt w1 /\ killkid w1 = Ret tt w2 /\
    forcekill (this w1) = true /\ this w2 = this w1 /\
    history (host w1) = (clock (host w), a) :: history (host w) /\
    history (host w2) = (clock (host w), a) :: history (host w1) /\
    with_history [] (host w2) = with_history [] (host w1) /\
    match child (this w) with
    | Some c => if stopParentFirst (this w)
                then a = Send (cid c) "shutdown" else a = Kill (cid c)
    | None => a = Log Warn MsgUnrecognized
    end.
Proof.
  js_open w. js_unfold. cbn.
  js_cases; do 3 eexists; repeat split; reflexivity.
Qed.

(** * The rate limiter of [monitor] *)

(** [starts] is the number of launches since the window timer last fired. *)
Lemma step_starts (w : World) (e : Z * Event) :
  starts (this w) = Z.of_nat (launches_since_reset (history (host w))) ->
  after_step w e (fun w' =>
    starts (this w') = Z.of_nat (launches_since_reset (history (host w')))).
Proof.
  intro H. js_open w. destruct e as [now ev]. cbn in H.
  unfold after_step, step.
  destruct ev; js_unfold; cbn.
  all: js_cases; auto; try lia.
Qed.

(** The test of [monitor], on an exit that reaches it. *)
Lemma monitor_decision (w w' : World) (t : Z) (c : nat) (code : option Z) :
  step w (t, EvChildExit c code) = Some w' ->
  forcekill (this w) = false ->
  code_not_zero code && abortOnError (this w) = false ->
  (starts (this w) >= maxRestarts (this w) ->
   t - startTime (this w) <= MAX * 1000 ->
   exited (host w') = true /\
   In (t, Log Error MsgTooManyRestarts) (history (host w')) /\
   timers (host w') = timers (host w) /\
   forks w' = forks w) /\
  (starts (this w) < maxRestarts (this w) \/
   t - startTime (this w) > MAX * 1000 ->
   exited (host w') = false /\
   history (host w') =
     (t, SetTimeout RestartTimer (wait (this w)))
       :: (t, Log Warn MsgStopped) :: history (host w) /\
   timers (host w') =
     timers (host w) ++
     [{| kind := RestartTimer; due := t + timeout_delay (wait (this w)) |}]).
Proof.
  intros Hs Hk Ha. revert Hs. js_open w. cbn in Hk, Ha. subst.
  unfold step, forks. cbn [exited host clock alive].
  destruct exited0; [discriminate|].
  destruct (t <? clock0); [discriminate|].
  js_unfold; cbn.
  destruct (existsb (Nat.eqb c) alive0); [|discriminate].
  rewrite Ha. unfold MAX. cbn.
  destruct (starts0 >=? maxRestarts0) eqn:E1; cbn;
    [destruct (t - 60000 <=? startTime0) eqn:E2; cbn|];
    js_cases; intro Hs; injection Hs as <-; cbn;
    (split; [intros H1 H2|intros H1]); try lia; auto 6.
Qed.

(** C2, as stated, fails: with [maxRestarts = 2] the supervisor restarts
    the child three times within 2.3 seconds.  The window is not rolling:
    [starts] and [startTime] are cleared by the timer of the first launch
    (here at 1060001), and counting begins anew. *)
Lemma three_restarts_around_reset :
  run (init two_per_window) exits_around_reset =
    Some (world_after two_per_window exits_around_reset) /\
  maxRestarts (this (world_after two_per_window exits_around_reset)) = 2 /\
  restarts_between 1059900 (1059900 + MAX * 1000)
    (world_after two_per_window exits_around_reset) = 3%nat /\
  map fst (filter (fun e => is_restart (snd e))
             (chronicle (world_after two_per_window exits_around_reset))) =
    [1059900; 1061100; 1062200].
Proof. evaluate. Qed.

(** C2, amended: in every execution [starts] counts the launches since the
    window timer last fired (a fixed window, not a rolling one).  When an
    exit reaches [monitor] (no shutdown requested and no abort on error)
    with [starts >= maxRestarts] and at most 60 seconds since [startTime],
    the supervisor logs the rate-limit error and ends the process without
    forking or scheduling a restart; in every other case it schedules one
    restart after the current [wait]. *)
Theorem rate_limit_decision
    (o : Options.t) (tr : list (Z * Event))
    (w w' : World) (t : Z) (c : nat) (code : option Z) :
  run (init o) tr = Some w ->
  step w (t, EvChildExit c code) = Some w' ->
  forcekill (this w) = false ->
  code_not_zero code && abortOnError (this w) = false ->
  starts (this w) = Z.of_nat (launches_since_reset (history (host w))) /\
  (starts (this w) >= maxRestarts (this w) ->
   t - startTime (this w) <= MAX * 1000 ->
   exited (host w') = true /\
   In (t, Log Error MsgTooManyRestarts) (history (host w')) /\
   timers (host w') = timers (host w) /\
   forks w' = forks w) /\
  (starts (this w) < maxRestarts (this w) \/
   t - startTime (this w) > MAX * 1000 ->
   exited (host w') = false /\
   history (host w') =
     (t, SetTimeout RestartTimer (wait (this w)))
       :: (t, Log Warn MsgStopped) :: history (host w) /\
   timers (host w') =
     timers (host w) ++
     [{| kind := RestartTimer; due := t + timeout_delay (wait (this w)) |}]).
Proof.
  intros Hrun Hs Hk Ha. split.
  - apply (run_invariant (fun x =>
             starts (this x) =
             Z.of_nat (launches_since_reset (history (host x)))))
      with (tr := tr) (w := init o); auto using step_starts.
  - exact (monitor_decision w w' t c code Hs Hk Ha).
Qed.

Lemma rate_limit_decision_witness :
  run (init scenario_A) [ (1000, EvStart) ] =
    Some (world_after scenario_A [ (1000, EvStart) ]) /\
  step (world_after scenario_A [ (1000, EvStart) ])
       (1100, EvChildExit 0%nat (Some 1)) =
    Some (world_after scenario_A
            [ (1000, EvStart); (1100, EvChildExit 0%nat (Some 1)) ]) /\
  exited (host (world_after scenario_A
            [ (1000, EvStart); (1100, EvChildExit 0%nat (Some 1)) ])) = false /\
  history (host (world_after scenario_A
            [ (1000, EvStart); (1100, EvChildExit 0%nat (Some 1)) ])) =
    (1100, SetTimeout RestartTimer
             (wait (this (world_after scenario_A [ (1000, EvStart) ]))))
    :: (1100, Log Warn MsgStopped)
    :: history (host (world_after scenario_A [ (1000, EvStart) ])).
Proof.
  assert (Hrun : run (init scenario_A) [ (1000, EvStart) ] =
                 Some (world_after scenario_A [ (1000, EvStart) ]))
    by (vm_compute; reflexivity).
  assert (Hs : step (world_after scenario_A [ (1000, EvStart) ])
                 (1100, EvChildExit 0%nat (Some 1)) =
               Some (world_after scenario_A
                 [ (1000, EvStart); (1100, EvChildExit 0%nat (Some 1)) ]))
    by (vm_compute; reflexivity).
  split; [exact Hrun|]. split; [exact Hs|].
  assert (Hk : forcekill (this (world_after scenario_A [ (1000, EvStart) ]))
               = false)
    by (vm_compute; reflexivity).
  assert (Ha : code_not_zero (Some 1) &&
               abortOnError (this (world_after scenario_A [ (1000, EvStart) ]))
               = false)
    by (vm_compute; reflexivity).
  destruct (rate_limit_decision _ _ _ _ _ _ _ Hrun Hs Hk Ha) as (_ & _ & H).
  destruct H as (H1 & H2 & _).
  - left. vm_compute. reflexivity.
  - split; [exact H1 | exact H2].
Defined.

(** * Backoff: [wait] and [attempts] *)


(** No event lowers [attempts]: the branch of [monitor] that resets it is
    never reached, since the [exit] listener clears [this.child] first. *)
Lemma step_attempts (w : World) (e : Z * Event) :
  after_step w e (fun w' => attempts (this w) <= attempts (this w')).
Proof.
  js_open w. destruct e as [now ev].
  unfold after_step, step.
  destruct ev; js_unfold; cbn.
  all: js_cases; lia.
Qed.


(** C3 fails on the code.  After one failure the second child is started
    at 3000 and keeps running; the window timer fires at 61001 and clears
    [starts] and [startTime], but [attempts] stays 1 and [wait] stays
    1250 ms, and the exit of that child at 100000, 97 seconds after its
    start, is followed by a restart scheduled 1250 ms later. *)
Lemma stable_run_keeps_attempts_and_wait :
  alive (host (world_after Options.empty one_failure_then_stable)) = [1%nat] /\
  starts (this (world_after Options.empty one_failure_then_stable)) = 0 /\
  startTime (this (world_after Options.empty one_failure_then_stable)) = 0 /\
  attempts (this (world_after Options.empty one_failure_then_stable)) = 1 /\
  wait (this (world_after Options.empty one_failure_then_stable)) =
    1250%float /\
  wait (this (init Options.empty)) = 1000%float /\
  option_map (fun w' => hd_error (history (host w')))
    (step (world_after Options.empty one_failure_then_stable)
          (100000, EvChildExit 1%nat (Some 1))) =
    Some (Some (100000, SetTimeout RestartTimer (1 * 1000 * (0.25 + 1))%float)).
Proof. evaluate. Qed.

(** * The retry budget *)

(** C5: with [maxRetries >= 0], the restart-timer callback adds one to
    [attempts]; when that exceeds [maxRetries] it logs the error and ends
    the process without forking; otherwise (no shutdown requested) the
    process goes on and one child is forked.  In scenario A the three exits
    are each followed by a timer of 1000 ms; the first two firings restart
    the child and the third ends the process: three forks in all. *)
Theorem retry_budget (w : World) :
  maxRetries (this w) >= 0 ->
  attempts (this (final (on_restart_timer w))) = attempts (this w) + 1 /\
  (attempts (this w) + 1 > maxRetries (this w) ->
   exited (host (final (on_restart_timer w))) = true /\
   forks (final (on_restart_timer w)) = forks w /\
   In (clock (host w), Log Error MsgMaxTotalRestarts)
      (history (host (final (on_restart_timer w))))) /\
  (attempts (this w) + 1 <= maxRetries (this w) ->
   forcekill (this w) = false ->
   exited (host (final (on_restart_timer w))) = exited (host w) /\
   forks (final (on_restart_timer w)) = S (forks w)) /\
  run (init scenario_A) three_rapid_exits =
    Some (world_after scenario_A three_rapid_exits) /\
  exited (host (world_after scenario_A three_rapid_exits)) = true /\
  forks (world_after scenario_A three_rapid_exits) = 3%nat /\
  chronicle (world_after scenario_A three_rapid_exits) =
    [ (1000, Log Info MsgStarting);
      (1000, SetTimeout WindowTimer 60001%float);
      (1000, Fork 0%nat);
      (1100, Log Warn MsgStopped);
      (1100, SetTimeout RestartTimer 1000%float);
      (2100, Fired RestartTimer);
      (2100, Log Warn (MsgRestarted 1000%float 1));
      (2100, Fork 1%nat);
      (2200, Log Warn MsgStopped);
      (2200, SetTimeout RestartTimer 1000%float);
      (3200, Fired RestartTimer);
      (3200, Log Warn (MsgRestarted 1000%float 2));
      (3200, Fork 2%nat);
      (3300, Log Warn MsgStopped);
      (3300, SetTimeout RestartTimer 1000%float);
      (4300, Fired RestartTimer);
      (4300, Log Error MsgMaxTotalRestarts);
      (4300, ProcessExit);
      (4300, Log Warn MsgUnrecognized) ].
Proof.
  intro Hm. split; [|split; [|split]].
  - js_open w. js_unfold. cbn. js_cases; reflexivity.
  - intro Hgt. js_open w. cbn in Hm, Hgt. unfold forks. js_unfold. cbn.
    assert (E : (attempts0 + 1 >? maxRetries0) && (maxRetries0 >=? 0) = true).
    { apply andb_true_iff. split; [apply Z.gtb_lt|apply Z.geb_le]; lia. }
    rewrite E. cbn. js_cases; repeat split; auto 8.
  - intros Hle Hk. js_open w. cbn in Hm, Hle, Hk. subst. unfold forks.
    js_unfold. cbn.
    assert (E : (attempts0 + 1 >? maxRetries0) && (maxRetries0 >=? 0) = false).
    { apply andb_false_iff. left. rewrite Z.gtb_ltb. apply Z.ltb_ge. lia. }
    rewrite E. cbn. js_cases; auto.
  - evaluate.
Qed.

Lemma retry_budget_witness :
  maxRetries (this (world_after scenario_A [ (1000, EvStart) ])) >= 0 /\
  attempts (this (final (on_restart_timer
              (world_after scenario_A [ (1000, EvStart) ])))) =
  attempts (this (world_after scenario_A [ (1000, EvStart) ])) + 1.
Proof.
  assert (Hm : maxRetries (this (world_after scenario_A [ (1000, EvStart) ])) >= 0)
    by (vm_compute; discriminate).
  split; [exact Hm|].
  exact (proj1 (retry_budget _ Hm)).
Defined.

(** * One child at a time *)

Lemma pending_remove_nth (l : list Timer) (i : nat) (tm : Timer) :
  nth_error l i = Some tm ->
  List.length (filter is_restart_timer l) =
  ((if is_restart_timer tm then 1 else 0) +
   List.length (filter is_restart_timer (remove_nth i l)))%nat.
Proof.
  revert i. induction l as [|x l IH]; intros [|i] H;
    cbn [nth_error remove_nth filter] in *; try discriminate.
  - injection H as ->. destruct (is_restart_timer tm); reflexivity.
  - specialize (IH _ H).
    destruct (is_restart_timer x), (is_restart_timer tm);
      cbn [List.length] in *; lia.
Qed.

Lemma pending_app (l : list Timer) (tm : Timer) :
  List.length (filter is_restart_timer (l ++ [tm])) =
  (List.length (filter is_restart_timer l) +
   (if is_restart_timer tm then 1 else 0))%nat.
Proof.
  rewrite filter_app, length_app. simpl.
  destruct (is_restart_timer tm); reflexivity.
Qed.

Lemma alive_singleton (l : list nat) (c : nat) :
  (List.length l <= 1)%nat -> existsb (Nat.eqb c) l = true -> l = [c].
Proof.
  destruct l as [|x [|y l]]; simpl; intros Hl H; try discriminate; try lia.
  rewrite orb_false_r in H. apply Nat.eqb_eq in H. congruence.
Qed.

Lemma remove_singleton (c : nat) : remove Nat.eq_dec c [c] = [].
Proof. simpl. destruct (Nat.eq_dec c c); congruence. Qed.

Ltac single_child_done :=
  rewrite ?pending_app; cbn; repeat split; auto; try lia; try discriminate;
  try match goal with
      | Hi : ?l = false -> _, H : ?l = false |- _ =>
          destruct (Hi H); (assumption || lia || congruence)
      end.

(** Every event other than an [uncaughtException] or a server [error]
    keeps the invariant. *)
Lemma step_single_child (w : World) (e : Z * Event) :
  single_child w -> is_error_event (snd e) = false ->
  after_step w e single_child.
Proof.
  intros (Hsum & Hidle & Hagree) Hq. destruct e as [now ev].
  unfold after_step, step.
  destruct (exited (host w)) eqn:Hex; [exact I|].
  destruct (now <? clock (host w)); [exact I|].
  specialize (Hagree eq_refl).
  unfold single_child, handle_agrees, restarts_pending in *.
  destruct ev; try discriminate.
  - (* start() *)
    js_open w. js_unfold. cbn in *. subst.
    destruct listening0; [exact I|]. destruct (Hidle eq_refl) as [-> Hp].
    destruct child0; [discriminate|].
    js_cases; single_child_done.
  - (* SIGINT, SIGTERM *)
    js_open w. js_unfold. cbn in *. subst.
    js_cases; auto.
  - (* a timer fires *)
    js_open w. cbn in *. subst.
    destruct (nth_error timers0 i) as [tm|] eqn:Ht; [|exact I].
    destruct (due tm <=? now); [|exact I].
    rewrite (pending_remove_nth _ _ _ Ht) in *.
    destruct tm as [[|] d]; js_unfold; cbn in *.
    + assert (alive0 = []) by (destruct alive0; simpl in *; [reflexivity|lia]).
      subst alive0. destruct child0; [discriminate|].
      js_cases; single_child_done.
    + js_cases; single_child_done.
  - (* the child exits *)
    js_open w. cbn in *. subst.
    destruct (existsb (Nat.eqb c) alive0) eqn:Hin; [|exact I].
    assert (alive0 = [c]) by (apply alive_singleton; auto; lia). subst alive0.
    js_unfold; cbn -[remove] in *. rewrite remove_singleton.
    js_cases; single_child_done.
Qed.

Lemma init_single_child (o : Options.t) : single_child (init o).
Proof. repeat split; cbn; auto. Qed.

(** C6, as stated, fails: an [uncaughtException] while the first child
    runs forks a second one, and both are alive. *)
Lemma uncaught_exception_forks_second_child :
  option_map (fun w => (alive (host w), chronicle w))
    (run (init Options.empty)
       [ (1000, EvStart); (2000, EvUncaught "boom") ]) =
  Some ([1%nat; 0%nat],
        [ (1000, Log Info MsgStarting);
          (1000, SetTimeout WindowTimer 60001%float);
          (1000, Fork 0%nat);
          (2000, Log Warn (MsgError "boom"));
          (2000, Fork 1%nat) ]).
Proof. evaluate. Qed.

(** C6, amended: along every execution in which no [uncaughtException]
    and no server [error] occurs, at most one child is alive at every
    point, and until the process exits [this.child] is the handle of that
    child ([null] when none is alive). *)
Theorem one_child_in_quiet_runs
    (o : Options.t) (tr : list (Z * Event)) (w : World) :
  run (init o) tr = Some w -> quiet tr = true ->
  (List.length (alive (host w)) <= 1)%nat /\
  (exited (host w) = false -> handle_agrees w).
Proof.
  intros Hrun Hq.
  assert (H : single_child w).
  { apply (run_invariant_quiet single_child) with (tr := tr) (w := init o);
      auto using step_single_child, init_single_child. }
  destruct H as (Hsum & _ & Hag). split; [lia | exact Hag].
Qed.

Lemma one_child_in_quiet_runs_witness :
  run (init Options.empty) one_failure_then_stable =
    Some (world_after Options.empty one_failure_then_stable) /\
  quiet one_failure_then_stable = true /\
  (List.length
     (alive (host (world_after Options.empty one_failure_then_stable))) <= 1)%nat.
Proof.
  assert (Hrun : run (init Options.empty) one_failure_then_stable =
                 Some (world_after Options.empty one_failure_then_stable))
    by (vm_compute; reflexivity).
  assert (Hq : quiet one_failure_then_stable = true)
    by (vm_compute; reflexivity).
  split; [exact Hrun|]. split; [exact Hq|].
  exact (proj1 (one_child_in_quiet_runs _ _ _ Hrun Hq)).
Defined.

(** * Backoff along executions *)










(** * Termination requests along executions *)

(** C7, as stated, fails: the handler looks at [this.child], not at the
    children that run.  After an [uncaughtException] has forked a second
    child and that child has exited, [this.child] is [null] while the
    first child is still running: a signal then only logs the warning,
    and the running child gets neither a message nor a kill. *)
Lemma signal_misses_running_child :
  run (init Options.empty) second_child_exits =
    Some (world_after Options.empty second_child_exits) /\
  alive (host (world_after Options.empty second_child_exits)) = [0%nat] /\
  child (this (world_after Options.empty second_child_exits)) = None /\
  option_map (fun w' => (alive (host w'), chronicle w'))
    (step (world_after Options.empty second_child_exits) (3000, EvSignal)) =
  Some ([0%nat],
        [ (1000, Log Info MsgStarting);
          (1000, SetTimeout WindowTimer 60001%float);
          (1000, Fork 0%nat);
          (2000, Log Warn (MsgError "boom"));
          (2000, Fork 1%nat);
          (2500, Log Warn MsgStopped);
          (2500, SetTimeout RestartTimer 1000%float);
          (3000, Log Warn MsgUnrecognized) ]).
Proof. evaluate. Qed.

(** C7, amended.  In an execution without [uncaughtException] and server
    [error] events, a termination request (SIGINT or SIGTERM, once
    [start()] has registered the listeners) is always handled without
    ending the process: it sets [forcekill], leaves the rest of the object,
    the timers and the children as they are, and performs exactly one
    action.  If a child is running and [stopParentFirst] is set, that child
    is sent the shutdown message and is not killed; if a child is running
    and [stopParentFirst] is not set, that child is killed and no message
    is sent; if no child is running, the warning is logged and nothing
    else is done. *)
Theorem termination_request_in_quiet_runs
    (o : Options.t) (tr : list (Z * Event)) (w : World) (t : Z) :
  run (init o) tr = Some w ->
  quiet tr = true ->
  listening (host w) = true ->
  exited (host w) = false ->
  clock (host w) <= t ->
  exists w' a,
    step w (t, EvSignal) = Some w' /\
    this w' = with_forcekill true (this w) /\
    host w' = with_history ((t, a) :: history (host w)) (with_clock t (host w)) /\
    match alive (host w) with
    | [] => a = Log Warn MsgUnrecognized
    | [c] => a = if stopParentFirst (this w)
                 then Send c "shutdown" else Kill c
    | _ :: _ :: _ => False
    end.
Proof.
  intros Hrun Hq Hl Hex Ht.
  assert (H : single_child w).
  { apply (run_invariant_quiet single_child) with (tr := tr) (w := init o);
      auto using step_single_child, init_single_child. }
  destruct H as (_ & _ & Hag). specialize (Hag Hex).
  unfold step, handle_agrees in *. rewrite Hex.
  apply Z.ltb_ge in Ht. rewrite Ht.
  js_open w. js_unfold. cbn in *. subst.
  destruct child0 as [c|]; rewrite Hag;
    [destruct stopParentFirst0|]; do 2 eexists; repeat split; reflexivity.
Qed.

Lemma termination_request_in_quiet_runs_witness :
  run (init Options.empty) [ (1000, EvStart) ] =
    Some (world_after Options.empty [ (1000, EvStart) ]) /\
  quiet [ (1000, EvStart) ] = true /\
  listening (host (world_after Options.empty [ (1000, EvStart) ])) = true /\
  exited (host (world_after Options.empty [ (1000, EvStart) ])) = false /\
  clock (host (world_after Options.empty [ (1000, EvStart) ])) <= 2000 /\
  exists w' a,
    step (world_after Options.empty [ (1000, EvStart) ]) (2000, EvSignal) =
      Some w' /\
    this w' =
      with_forcekill true (this (world_after Options.empty [ (1000, EvStart) ])) /\
    host w' =
      with_history
        ((2000, a)
           :: history (host (world_after Options.empty [ (1000, EvStart) ])))
        (with_clock 2000 (host (world_after Options.empty [ (1000, EvStart) ]))) /\
    match alive (host (world_after Options.empty [ (1000, EvStart) ])) with
    | [] => a = Log Warn MsgUnrecognized
    | [c] => a = if stopParentFirst
                      (this (world_after Options.empty [ (1000, EvStart) ]))
                 then Send c "shutdown" else Kill c
    | _ :: _ :: _ => False
    end.
Proof.
  assert (Hrun : run (init Options.empty) [ (1000, EvStart) ] =
                 Some (world_after Options.empty [ (1000, EvStart) ]))
    by (vm_compute; reflexivity).
  assert (Hq : quiet [ (1000, EvStart) ] = true) by (vm_compute; reflexivity).
  assert (Hl : listening (host (world_after Options.empty [ (1000, EvStart) ]))
               = true) by (vm_compute; reflexivity).
  assert (Hex : exited (host (world_after Options.empty [ (1000, EvStart) ]))
                = false) by (vm_compute; reflexivity).
  assert (Ht : clock (host (world_after Options.empty [ (1000, EvStart) ]))
               <= 2000) by (vm_compute; discriminate).
  split; [exact Hrun|]. split; [exact Hq|]. split; [exact Hl|].
  split; [exact Hex|]. split; [exact Ht|].
  exact (termination_request_in_quiet_runs _ _ _ _ Hrun Hq Hl Hex Ht).
Defined.

(** * Abort on error *)

(** C9: the [exit] listener logs "... exited with error code ..." and ends
    the process exactly when the code is not [0] and [abortOnError] is set.
    For the code [0] it never does, whatever [abortOnError] is: no such
    message is logged, and unless a shutdown was requested or the rate
    limiter applies, the process goes on. *)
Theorem zero_exit_never_aborts (w : World) (code : option Z) :
  (code_not_zero code && abortOnError (this w) = true ->
   abort_messages (final (on_child_exit code w)) = S (abort_messages w) /\
   exited (host (final (on_child_exit code w))) = true) /\
  (code_not_zero code && abortOnError (this w) = false ->
   abort_messages (final (on_child_exit code w)) = abort_messages w) /\
  code_not_zero (Some 0) && abortOnError (this w) = false /\
  abort_messages (final (on_child_exit (Some 0) w)) = abort_messages w /\
  (forcekill (this w) = false ->
   starts (this w) < maxRestarts (this w) \/
   clock (host w) - startTime (this w) > MAX * 1000 ->
   exited (host (final (on_child_exit (Some 0) w))) = exited (host w)).
Proof.
  js_open w. unfold abort_messages, MAX. cbn.
  split; [|split; [|split; [|split]]].
  - intro H. js_unfold. cbn. rewrite H. cbn. js_cases; auto.
  - intro H. js_unfold. cbn. rewrite H. cbn. js_cases; auto.
  - reflexivity.
  - js_unfold. cbn. js_cases; auto.
  - intros Hk Hl. subst. js_unfold. cbn.
    destruct (starts0 >=? maxRestarts0) eqn:E1; cbn;
      [destruct (clock0 - 60000 <=? startTime0) eqn:E2; cbn|]; auto.
    lia.
Qed.

(** * [taskKill] *)

(** C10: [taskKill] throws for every [pid]: "PID is required for the kill
    operation." when [pid] is falsy (as [0] is), "PID must be a number."
    otherwise, because [typeof isNaN(pid)] is the non-empty string
    "boolean"; it never reaches [exec]. *)
Theorem taskKill_always_throws (pid : Cmd.number) (force : bool) :
  (Cmd.truthy pid = false ->
   Cmd.taskKill pid force =
     Cmd.Throws "PID is required for the kill operation.") /\
  (Cmd.truthy pid = true ->
   Cmd.taskKill pid force = Cmd.Throws "PID must be a number.") /\
  (forall p f, Cmd.taskKill pid force <> Cmd.Execs p f) /\
  Cmd.taskKill (Cmd.Finite 0) force =
    Cmd.Throws "PID is required for the kill operation." /\
  Cmd.truthy_string (Cmd.typeof_boolean (Cmd.isNaN pid)) = true.
Proof.
  unfold Cmd.taskKill.
  split; [|split; [|split; [|split]]].
  - intros ->. reflexivity.
  - intros ->. reflexivity.
  - intros p f. destruct (Cmd.truthy pid); discriminate.
  - reflexivity.
  - reflexivity.
Qed.

(** * Further properties of the supervisor *)

(** A property kept by every step whose event passes [ok] holds along
    every execution made of such events. *)
Lemma run_invariant_when (ok : Z * Event -> bool) (P : World -> Prop) :
  (forall w e, P w -> ok e = true -> after_step w e P) ->
  forall tr w w', P w -> forallb ok tr = true -> run w tr = Some w' -> P w'.
Proof.
  intros Hstep tr. induction tr as [|e tr IH]; simpl; intros w w' HP Hq Hrun.
  - congruence.
  - apply andb_true_iff in Hq. destruct Hq as [He Hq].
    destruct (step w e) as [w1|] eqn:E; [|discriminate].
    eapply IH; [|exact Hq|exact Hrun]. eapply after_step_elim; eauto.
Qed.

(** Turn the tests of the source into facts about integers. *)
Ltac tests_to_Z :=
  repeat match goal with
         | H : (_ && _) = true |- _ => apply andb_true_iff in H; destruct H
         | H : (_ && _) = false |- _ => apply andb_false_iff in H
         | H : (_ >? _) = true |- _ => apply Z.gtb_lt in H
         | H : (_ >? _) = false |- _ => rewrite Z.gtb_ltb in H; apply Z.ltb_ge in H
         | H : (_ >=? _) = true |- _ => apply Z.geb_le in H
         | H : (_ >=? _) = false |- _ => rewrite Z.geb_leb in H; apply Z.leb_gt in H
         | H : (_ <=? _) = true |- _ => apply Z.leb_le in H
         | H : (_ <=? _) = false |- _ => apply Z.leb_gt in H
         | H : (_ <? _) = true |- _ => apply Z.ltb_lt in H
         | H : (_ <? _) = false |- _ => apply Z.ltb_ge in H
         | H : (_ =? _) = true |- _ => apply Z.eqb_eq in H
         | H : (_ =? _) = false |- _ => apply Z.eqb_neq in H
         end.

Lemma step_attempts_count (w : World) (e : Z * Event) :
  attempts (this w) = Z.of_nat (restart_cycles w) ->
  after_step w e (fun w' =>
    attempts (this w') = Z.of_nat (restart_cycles w')).
Proof.
  intro H. js_open w. destruct e as [now ev]. unfold restart_cycles in *.
  cbn in H. unfold after_step, step.
  destruct ev; js_unfold; cbn.
  all: js_cases; auto; lia.
Qed.

(** X1: [attempts] is the number of times the restart timer has fired
    since the object was made; nothing ever resets or lowers it. *)
Theorem attempts_counts_firings
    (o : Options.t) (tr : list (Z * Event)) (w : World) :
  run (init o) tr = Some w ->
  attempts (this w) = Z.of_nat (restart_cycles w).
Proof.
  intro Hrun.
  apply (run_invariant (fun x =>
           attempts (this x) = Z.of_nat (restart_cycles x)))
    with (tr := tr) (w := init o); auto using step_attempts_count.
Qed.

Lemma attempts_counts_firings_witness :
  run (init Options.empty) one_failure_then_stable =
    Some (world_after Options.empty one_failure_then_stable) /\
  attempts (this (world_after Options.empty one_failure_then_stable)) =
  Z.of_nat (restart_cycles (world_after Options.empty one_failure_then_stable)).
Proof.
  assert (Hrun : run (init Options.empty) one_failure_then_stable =
                 Some (world_after Options.empty one_failure_then_stable))
    by (vm_compute; reflexivity).
  split; [exact Hrun|].
  exact (attempts_counts_firings _ _ _ Hrun).
Defined.

Lemma step_restart_budget (m : Z) (w : World) (e : Z * Event) :
  maxRetries (this w) = m /\
  Z.of_nat (restart_count w) <= attempts (this w) /\
  (0 <= m -> Z.of_nat (restart_count w) <= m) ->
  after_step w e (fun w' =>
    maxRetries (this w') = m /\
    Z.of_nat (restart_count w') <= attempts (this w') /\
    (0 <= m -> Z.of_nat (restart_count w') <= m)).
Proof.
  intros (Hm & Ha & Hb). js_open w. destruct e as [now ev].
  unfold restart_count in *. cbn in Hm, Ha, Hb. subst.
  unfold after_step, step.
  destruct ev; js_unfold; cbn.
  all: js_cases; tests_to_Z; repeat split; auto; try lia.
  all: intro; match goal with H : _ \/ _ |- _ => destruct H end;
    tests_to_Z; lia.
Qed.

(** X2: with [maxRetries >= 0], at most [maxRetries] restarts are made
    over the whole life of the supervisor. *)
Theorem restarts_within_budget
    (o : Options.t) (tr : list (Z * Event)) (w : World) :
  run (init o) tr = Some w ->
  0 <= maxRetries (this w) ->
  Z.of_nat (restart_count w) <= maxRetries (this w).
Proof.
  intros Hrun Hm.
  assert (H : maxRetries (this w) = maxRetries (this (init o)) /\
              Z.of_nat (restart_count w) <= attempts (this w) /\
              (0 <= maxRetries (this (init o)) ->
               Z.of_nat (restart_count w) <= maxRetries (this (init o)))).
  { apply (run_invariant (fun x =>
             maxRetries (this x) = maxRetries (this (init o)) /\
             Z.of_nat (restart_count x) <= attempts (this x) /\
             (0 <= maxRetries (this (init o)) ->
              Z.of_nat (restart_count x) <= maxRetries (this (init o)))))
      with (tr := tr) (w := init o); auto using step_restart_budget.
    cbn. repeat split; auto; lia. }
  destruct H as (E & _ & H). rewrite E in *. auto.
Qed.

Lemma restarts_within_budget_witness :
  run (init scenario_A) three_rapid_exits =
    Some (world_after scenario_A three_rapid_exits) /\
  0 <= maxRetries (this (world_after scenario_A three_rapid_exits)) /\
  Z.of_nat (restart_count (world_after scenario_A three_rapid_exits)) <=
  maxRetries (this (world_after scenario_A three_rapid_exits)).
Proof.
  assert (Hrun : run (init scenario_A) three_rapid_exits =
                 Some (world_after scenario_A three_rapid_exits))
    by (vm_compute; reflexivity).
  assert (Hm : 0 <= maxRetries (this (world_after scenario_A three_rapid_exits)))
    by (vm_compute; discriminate).
  split; [exact Hrun|]. split; [exact Hm|].
  exact (restarts_within_budget _ _ _ Hrun Hm).
Defined.

Lemma step_exit_explained (w : World) (e : Z * Event) :
  (exited (host w) = false -> forcekill (this w) = false) /\
  (exited (host w) = true -> exit_explained (history (host w)) = true) ->
  negb (is_signal (snd e)) = true ->
  after_step w e (fun w' =>
    (exited (host w') = false -> forcekill (this w') = false) /\
    (exited (host w') = true -> exit_explained (history (host w')) = true)).
Proof.
  intros [Hk _] Hs. js_open w. destruct e as [now ev]. cbn in Hk.
  unfold after_step, step. cbn [exited host clock].
  destruct exited0; [exact I|]. specialize (Hk eq_refl). subst.
  destruct (now <? clock0); [exact I|].
  destruct ev; try discriminate; js_unfold; cbn.
  all: js_cases; split; intro; try discriminate; reflexivity.
Qed.

Ltac exit_shape_done H :=
  first
    [ solve [ eexists [], _, _, _, _;
              split; [reflexivity | split; [simpl; lia | exact H]] ]
    | solve [ eexists [_], _, _, _, _;
              split; [reflexivity | split; [simpl; lia | exact H]] ] ].

Lemma exit_explained_shape (h : list (Z * Action)) :
  exit_explained h = true ->
  exists last t t' m rest,
    h = last ++ (t, ProcessExit) :: (t', Log Error m) :: rest /\
    (List.length last <= 1)%nat /\ is_fatal m = true.
Proof.
  intro H.
  destruct h as [|[t1 a1] h]; [discriminate|].
  destruct h as [|[t2 a2] h]; [destruct a1; discriminate|].
  destruct h as [|[t3 a3] h].
  - destruct a1; try discriminate;
      destruct a2 as [[] ?| | | | | |]; try discriminate; exit_shape_done H.
  - destruct a1;
      destruct a2 as [[] ?| | | | | |]; try discriminate;
      try exit_shape_done H;
      destruct a3 as [[] ?| | | | | |]; try discriminate; exit_shape_done H.
Qed.

(** X3: in an execution in which no SIGINT and no SIGTERM is delivered,
    the supervisor ends its process only right after logging one of its
    three errors: the exit code (abort on error), too many restarts
    within 60 seconds, or the maximum of total restarts.  At most the one
    action of the [exit] listener follows the [process.exit()]. *)
Theorem exit_only_after_error
    (o : Options.t) (tr : list (Z * Event)) (w : World) :
  run (init o) tr = Some w ->
  unsignalled tr = true ->
  exited (host w) = true ->
  exists last t t' m rest,
    history (host w) =
      last ++ (t, ProcessExit) :: (t', Log Error m) :: rest /\
    (List.length last <= 1)%nat /\
    (m = MsgTooManyRestarts \/ m = MsgMaxTotalRestarts \/
     exists code, m = MsgExitCode code).
Proof.
  intros Hrun Hs Hex.
  assert (H : (exited (host w) = false -> forcekill (this w) = false) /\
              (exited (host w) = true ->
               exit_explained (history (host w)) = true)).
  { apply (run_invariant_when (fun e => negb (is_signal (snd e))) (fun x =>
             (exited (host x) = false -> forcekill (this x) = false) /\
             (exited (host x) = true ->
              exit_explained (history (host x)) = true)))
      with (tr := tr) (w := init o); auto using step_exit_explained. }
  destruct H as [_ H].
  destruct (exit_explained_shape _ (H Hex)) as (l & t & t' & m & r & E & Hl & Hf).
  exists l, t, t', m, r. repeat split; auto.
  destruct m; try discriminate; eauto.
Qed.

Lemma exit_only_after_error_witness :
  run (init scenario_A) three_rapid_exits =
    Some (world_after scenario_A three_rapid_exits) /\
  unsignalled three_rapid_exits = true /\
  exited (host (world_after scenario_A three_rapid_exits)) = true /\
  exists last t t' m rest,
    history (host (world_after scenario_A three_rapid_exits)) =
      last ++ (t, ProcessExit) :: (t', Log Error m) :: rest /\
    (List.length last <= 1)%nat /\
    (m = MsgTooManyRestarts \/ m = MsgMaxTotalRestarts \/
     exists code, m = MsgExitCode code).
Proof.
  assert (Hrun : run (init scenario_A) three_rapid_exits =
                 Some (world_after scenario_A three_rapid_exits))
    by (vm_compute; reflexivity).
  assert (Hs : unsignalled three_rapid_exits = true)
    by (vm_compute; reflexivity).
  assert (Hex : exited (host (world_after scenario_A three_rapid_exits)) = true)
    by (vm_compute; reflexivity).
  split; [exact Hrun|]. split; [exact Hs|]. split; [exact Hex|].
  exact (exit_only_after_error _ _ _ Hrun Hs Hex).
Defined.

(** X4: with [maxRestarts <= 0] the rate limiter is not switched off: in
    every execution, an exit that reaches [monitor] within 60 seconds of
    [startTime] ends the process, and nothing is restarted. *)
Theorem zero_max_restarts_stops
    (o : Options.t) (tr : list (Z * Event))
    (w w' : World) (t : Z) (c : nat) (code : option Z) :
  run (init o) tr = Some w ->
  maxRestarts (this w) <= 0 ->
  step w (t, EvChildExit c code) = Some w' ->
  forcekill (this w) = false ->
  code_not_zero code && abortOnError (this w) = false ->
  t - startTime (this w) <= MAX * 1000 ->
  exited (host w') = true /\
  In (t, Log Error MsgTooManyRestarts) (history (host w')) /\
  timers (host w') = timers (host w) /\
  forks w' = forks w.
Proof.
  intros Hrun Hm Hs Hk Ha Ht.
  assert (H : starts (this w) =
              Z.of_nat (launches_since_reset (history (host w)))).
  { apply (run_invariant (fun x =>
             starts (this x) =
             Z.of_nat (launches_since_reset (history (host x)))))
      with (tr := tr) (w := init o); auto using step_starts. }
  apply (monitor_decision w w' t c code Hs Hk Ha); [lia|exact Ht].
Qed.

Lemma zero_max_restarts_stops_witness :
  run (init no_restarts) [ (1000, EvStart) ] =
    Some (world_after no_restarts [ (1000, EvStart) ]) /\
  maxRestarts (this (world_after no_restarts [ (1000, EvStart) ])) <= 0 /\
  step (world_after no_restarts [ (1000, EvStart) ])
       (5000, EvChildExit 0%nat (Some 0)) =
    Some (world_after no_restarts
            [ (1000, EvStart); (5000, EvChildExit 0%nat (Some 0)) ]) /\
  exited (host (world_after no_restarts
            [ (1000, EvStart); (5000, EvChildExit 0%nat (Some 0)) ])) = true.
Proof.
  assert (Hrun : run (init no_restarts) [ (1000, EvStart) ] =
                 Some (world_after no_restarts [ (1000, EvStart) ]))
    by (vm_compute; reflexivity).
  assert (Hm : maxRestarts (this (world_after no_restarts [ (1000, EvStart) ])) <= 0)
    by (vm_compute; discriminate).
  assert (Hs : step (world_after no_restarts [ (1000, EvStart) ])
                 (5000, EvChildExit 0%nat (Some 0)) =
               Some (world_after no_restarts
                 [ (1000, EvStart); (5000, EvChildExit 0%nat (Some 0)) ]))
    by (vm_compute; reflexivity).
  assert (Hk : forcekill (this (world_after no_restarts [ (1000, EvStart) ])) = false)
    by (vm_compute; reflexivity).
  assert (Ha : code_not_zero (Some 0) &&
               abortOnError (this (world_after no_restarts [ (1000, EvStart) ])) = false)
    by (vm_compute; reflexivity).
  assert (Ht : 5000 - startTime (this (world_after no_restarts [ (1000, EvStart) ]))
               <= MAX * 1000)
    by (vm_compute; discriminate).
  split; [exact Hrun|]. split; [exact Hm|]. split; [exact Hs|].
  exact (proj1 (zero_max_restarts_stops _ _ _ _ _ _ _ Hrun Hm Hs Hk Ha Ht)).
Defined.

Lemma window_remove_other (l : list Timer) (i : nat) (tm : Timer) :
  nth_error l i = Some tm -> is_window_timer tm = false ->
  filter is_window_timer (remove_nth i l) = filter is_window_timer l.
Proof.
  revert i. induction l as [|x l IH]; intros [|i] H Hk;
    cbn [nth_error remove_nth filter] in *; try discriminate.
  - injection H as ->. rewrite Hk. reflexivity.
  - rewrite (IH _ H Hk). reflexivity.
Qed.

Lemma window_remove_only (l : list Timer) (i : nat) (tm : Timer) (d : Z) :
  nth_error l i = Some tm -> is_window_timer tm = true ->
  map due (filter is_window_timer l) = [d] ->
  filter is_window_timer (remove_nth i l) = [].
Proof.
  revert i. induction l as [|x l IH]; intros [|i] H Hk Hl;
    cbn [nth_error remove_nth filter] in *; try discriminate.
  - injection H as ->. rewrite Hk in Hl. cbn in Hl.
    destruct (filter is_window_timer l); [reflexivity|discriminate].
  - destruct (is_window_timer x) eqn:Ex.
    + cbn in Hl. exfalso.
      assert (Hin : In tm (filter is_window_timer l)).
      { apply filter_In. split; [eapply nth_error_In; eauto|exact Hk]. }
      destruct (filter is_window_timer l); [destruct Hin|discriminate].
    + apply (IH _ H Hk Hl).
Qed.

Lemma window_remove_none (l : list Timer) (i : nat) (tm : Timer) :
  nth_error l i = Some tm -> is_window_timer tm = true ->
  filter is_window_timer l <> [].
Proof.
  intros H Hk E.
  assert (Hin : In tm (filter is_window_timer l)).
  { apply filter_In. split; [eapply nth_error_In; eauto|exact Hk]. }
  rewrite E in Hin. destruct Hin.
Qed.

Ltac window_done :=
  cbn; rewrite ?filter_app, ?map_app; cbn; tests_to_Z;
  repeat match goal with
         | |- context [?x =? 0] =>
             let E := fresh in destruct (x =? 0) eqn:E; tests_to_Z
         | H : context [?x =? 0] |- _ =>
             let E := fresh in destruct (x =? 0) eqn:E; tests_to_Z
         end;
  repeat match goal with H : _ /\ _ |- _ => destruct H end;
  subst; cbn in *; rewrite ?app_nil_r;
  try match goal with H : map due _ = _ |- _ => rewrite H end; cbn;
  try solve [ auto | lia | congruence
            | split; [congruence || auto | lia || auto] ].

Lemma step_window (w : World) (e : Z * Event) :
  window_consistent w -> (0 <? fst e) = true ->
  after_step w e window_consistent.
Proof.
  intros Hw Hpos. destruct e as [now ev]. cbn in Hpos.
  apply Z.ltb_lt in Hpos.
  unfold after_step, step.
  destruct (exited (host w)); [exact I|].
  destruct (now <? clock (host w)); [exact I|].
  unfold window_consistent, window_dues in *.
  destruct ev.
  - js_open w. js_unfold. cbn in *.
    js_cases; window_done.
  - js_open w. js_unfold. cbn in *.
    js_cases; window_done.
  - js_open w. js_unfold. cbn in *.
    js_cases; window_done.
  - js_open w. js_unfold. cbn in *.
    js_cases; window_done.
  - js_open w. cbn in *.
    destruct (nth_error timers0 i) as [tm|] eqn:Ht; [|exact I].
    destruct (due tm <=? now); [|exact I].
    destruct tm as [[|] d].
    + rewrite <- (window_remove_other _ _ _ Ht eq_refl) in Hw.
      js_unfold. cbn in *.
      js_cases; window_done.
    + js_unfold. cbn in *.
      destruct (startTime0 =? 0) eqn:E0.
      * destruct Hw as [Hw _]. exfalso.
        apply (window_remove_none _ _ _ Ht eq_refl).
        destruct (filter is_window_timer timers0); [reflexivity|discriminate].
      * rewrite (window_remove_only _ _ _ _ Ht eq_refl Hw). cbn. auto.
  - js_open w. js_unfold. cbn in *.
    js_cases; window_done.
Qed.

(** X5: in every execution whose events happen at positive times, a
    counting window is open ([startTime] is not 0) exactly when its reset
    is pending: then one window timer is pending, due 60001 ms after
    [startTime]; otherwise none is pending and [starts] is 0. *)
Theorem window_always_closes
    (o : Options.t) (tr : list (Z * Event)) (w : World) :
  run (init o) tr = Some w ->
  positive_times tr = true ->
  window_consistent w.
Proof.
  intros Hrun Hp.
  apply (run_invariant_when (fun e => 0 <? fst e) window_consistent)
    with (tr := tr) (w := init o); auto using step_window.
  cbn. auto.
Qed.

Lemma window_always_closes_witness :
  run (init two_per_window) exits_around_reset =
    Some (world_after two_per_window exits_around_reset) /\
  positive_times exits_around_reset = true /\
  window_consistent (world_after two_per_window exits_around_reset).
Proof.
  assert (Hrun : run (init two_per_window) exits_around_reset =
                 Some (world_after two_per_window exits_around_reset))
    by (vm_compute; reflexivity).
  assert (Hp : positive_times exits_around_reset = true)
    by (vm_compute; reflexivity).
  split; [exact Hrun|]. split; [exact Hp|].
  exact (window_always_closes _ _ _ Hrun Hp).
Defined.

(** X6: in an execution without [uncaughtException] and server [error]
    events, a SIGINT or SIGTERM acts on the child that is really running:
    it is sent the shutdown message when [stopParentFirst] is set and is
    killed otherwise; when no child is running, only the warning is
    logged. *)
Theorem signal_reaches_running_child
    (o : Options.t) (tr : list (Z * Event)) (w w' : World) (t : Z) :
  run (init o) tr = Some w ->
  quiet tr = true ->
  step w (t, EvSignal) = Some w' ->
  forcekill (this w') = true /\
  alive (host w') = alive (host w) /\
  match alive (host w) with
  | [] => history (host w') = (t, Log Warn MsgUnrecognized) :: history (host w)
  | [c] =>
      history (host w') =
      (t, if stopParentFirst (this w) then Send c "shutdown" else Kill c)
        :: history (host w)
  | _ :: _ :: _ => False
  end.
Proof.
  intros Hrun Hq Hs.
  assert (H : single_child w).
  { apply (run_invariant_quiet single_child) with (tr := tr) (w := init o);
      auto using step_single_child, init_single_child. }
  destruct H as (_ & _ & Hag). revert Hs.
  unfold step, handle_agrees in *.
  destruct (exited (host w)); [discriminate|]. specialize (Hag eq_refl).
  destruct (t <? clock (host w)); [discriminate|].
  js_open w. js_unfold. cbn in *.
  destruct listening0; [|discriminate].
  destruct child0 as [c|]; rewrite Hag; intro Hs; injection Hs as <-; cbn;
    [destruct stopParentFirst0|]; auto.
Qed.

Lemma signal_reaches_running_child_witness :
  run (init Options.empty) [ (1000, EvStart) ] =
    Some (world_after Options.empty [ (1000, EvStart) ]) /\
  quiet [ (1000, EvStart) ] = true /\
  step (world_after Options.empty [ (1000, EvStart) ]) (2000, EvSignal) =
    Some (world_after Options.empty signal_while_running) /\
  forcekill (this (world_after Options.empty signal_while_running)) = true.
Proof.
  assert (Hrun : run (init Options.empty) [ (1000, EvStart) ] =
                 Some (world_after Options.empty [ (1000, EvStart) ]))
    by (vm_compute; reflexivity).
  assert (Hq : quiet [ (1000, EvStart) ] = true) by (vm_compute; reflexivity).
  assert (Hs : step (world_after Options.empty [ (1000, EvStart) ])
                 (2000, EvSignal) =
               Some (world_after Options.empty signal_while_running))
    by (vm_compute; reflexivity).
  split; [exact Hrun|]. split; [exact Hq|]. split; [exact Hs|].
  exact (proj1 (signal_reaches_running_child _ _ _ _ _ Hrun Hq Hs)).
Defined.

Lemma step_kill_or_send (b : bool) (w : World) (e : Z * Event) :
  stopParentFirst (this w) = b /\
  forallb (fun x => negb (if b then is_kill (snd x) else is_send (snd x)))
          (history (host w)) = true ->
  after_step w e (fun w' =>
    stopParentFirst (this w') = b /\
    forallb (fun x => negb (if b then is_kill (snd x) else is_send (snd x)))
            (history (host w')) = true).
Proof.
  intros [Hb Hh]. js_open w. destruct e as [now ev]. cbn in Hb, Hh. subst.
  unfold after_step, step.
  destruct ev; js_unfold; cbn.
  all: js_cases; auto.
Qed.

(** X7: the supervisor uses one way of stopping a child only: with
    [stopParentFirst] set it never calls [kill()] on a child, and without
    it it never sends a message to one, in any execution. *)
Theorem one_way_to_stop_a_child
    (o : Options.t) (tr : list (Z * Event)) (w : World) :
  run (init o) tr = Some w ->
  forallb (fun x => negb (if stopParentFirst (this w)
                          then is_kill (snd x) else is_send (snd x)))
          (history (host w)) = true.
Proof.
  intro Hrun.
  assert (H : stopParentFirst (this w) = stopParentFirst (this (init o)) /\
              forallb (fun x => negb (if stopParentFirst (this (init o))
                                      then is_kill (snd x)
                                      else is_send (snd x)))
                      (history (host w)) = true).
  { apply (run_invariant (fun x =>
             stopParentFirst (this x) = stopParentFirst (this (init o)) /\
             forallb (fun y => negb (if stopParentFirst (this (init o))
                                     then is_kill (snd y)
                                     else is_send (snd y)))
                     (history (host x)) = true))
      with (tr := tr) (w := init o); auto using step_kill_or_send. }
  destruct H as [E H]. rewrite E. exact H.
Qed.

Lemma one_way_to_stop_a_child_witness :
  run (init Options.empty) signal_while_running =
    Some (world_after Options.empty signal_while_running) /\
  forallb (fun x => negb (if stopParentFirst
                               (this (world_after Options.empty signal_while_running))
                          then is_kill (snd x) else is_send (snd x)))
          (history (host (world_after Options.empty signal_while_running))) = true.
Proof.
  assert (Hrun : run (init Options.empty) signal_while_running =
                 Some (world_after Options.empty signal_while_running))
    by (vm_compute; reflexivity).
  split; [exact Hrun|].
  exact (one_way_to_stop_a_child _ _ _ Hrun).
Defined.

(** * [taskList] *)

Lemma taskList_loop_row (Number : option Js.jsstring -> Cmd.number)
    (verbose : bool) (h : list Js.jsstring) (line next : Js.jsstring)
    (p : list Js.jsstring) :
  Cmd.taskList_loop Number verbose (Some h) (line :: next :: p) =
  Cmd.process_of Number verbose (Cmd.fill_record h (Cmd.line_values line) [])
    :: Cmd.taskList_loop Number verbose (Some h) (next :: p).
Proof. reflexivity. Qed.

Lemma taskList_loop_header (Number : option Js.jsstring -> Cmd.number)
    (verbose : bool) (line next : Js.jsstring) (p : list Js.jsstring) :
  Cmd.taskList_loop Number verbose None (line :: next :: p) =
  Cmd.taskList_loop Number verbose
    (Some (map Js.remove_spaces (Cmd.line_values line))) (next :: p).
Proof. reflexivity. Qed.

Lemma taskList_loop_length (Number : option Js.jsstring -> Cmd.number)
    (verbose : bool) (p : list Js.jsstring) :
  (forall h, List.length (Cmd.taskList_loop Number verbose (Some h) p) =
             (List.length p - 1)%nat) /\
  List.length (Cmd.taskList_loop Number verbose None p) =
  (List.length p - 2)%nat.
Proof.
  induction p as [|line p IH]; [split; reflexivity|].
  destruct IH as [IH1 IH2].
  destruct p as [|line' p]; [split; reflexivity|].
  split.
  - intro h. rewrite taskList_loop_row. cbn [List.length] in *.
    rewrite IH1. lia.
  - rewrite taskList_loop_header. cbn [List.length] in *.
    rewrite IH1. lia.
Qed.

(** X8: when [exec] succeeds, [taskList] returns one process for every
    line of the output except the first, which it takes for the header,
    and the last (the text after the last CR LF), which it never reads:
    [lines - 2] processes, and none for an output of fewer than three
    lines. *)
Theorem taskList_row_count
    (Number : option Js.jsstring -> Cmd.number)
    (exec : Js.jsstring -> Cmd.ExecOutcome) (verbose : bool)
    (stdout stderr : Js.jsstring) :
  exec (Cmd.taskList_command verbose) = Cmd.Resolved stdout stderr ->
  exists l,
    Cmd.taskList Number exec verbose = inr l /\
    List.length l = (List.length (Js.split_crlf stdout) - 2)%nat.
Proof.
  intro H. unfold Cmd.taskList. rewrite H. eexists. split; [reflexivity|].
  apply taskList_loop_length.
Qed.

Lemma taskList_row_count_witness :
  exists l,
    Cmd.taskList (fun _ => Cmd.NaN) (fun _ => Cmd.Resolved [] []) false = inr l /\
    List.length l = (List.length (Js.split_crlf []) - 2)%nat.
Proof.
  apply (taskList_row_count (fun _ => Cmd.NaN) (fun _ => Cmd.Resolved [] [])
           false [] []).
  reflexivity.
Defined.

(** ** Parsing a well-formed line *)

Lemma forallb_weaken {A} (P Q : A -> bool) (l : list A) :
  (forall x, P x = true -> Q x = true) ->
  forallb P l = true -> forallb Q l = true.
Proof.
  intros HPQ. induction l as [|x l IH]; [reflexivity|]. cbn.
  intro H. apply andb_true_iff in H. destruct H as [Hx H].
  rewrite (HPQ _ Hx), (IH H). reflexivity.
Qed.

Lemma plain_no_unit (f : Js.jsstring) :
  plain f = true ->
  no_unit 34 f /\ no_unit 39 f /\ no_unit 59 f /\ no_unit 13 f /\
  Js.starts_with [44%N] f = false.
Proof.
  unfold plain, no_unit. intro H. apply andb_true_iff in H.
  destruct H as [H Hs]. apply negb_true_iff in Hs.
  repeat split; auto.
  all: revert H; apply forallb_weaken; intros c Hc;
    apply negb_true_iff in Hc; apply negb_true_iff;
    repeat (apply orb_false_iff in Hc; destruct Hc as [Hc ?]); auto.
Qed.

Lemma remove_quotes_plain (f : Js.jsstring) :
  no_unit 34 f -> no_unit 39 f -> Js.remove_quotes f = f.
Proof.
  unfold no_unit, Js.remove_quotes.
  induction f as [|c f IH]; [reflexivity|]. cbn. intros H1 H2.
  apply andb_true_iff in H1. destruct H1 as [Hc1 H1].
  apply andb_true_iff in H2. destruct H2 as [Hc2 H2].
  apply negb_true_iff in Hc1. apply negb_true_iff in Hc2.
  rewrite Hc1, Hc2. cbn. rewrite (IH H1 H2). reflexivity.
Qed.

Lemma replace_quote_comma_skip (f rest : Js.jsstring) :
  no_unit 34 f ->
  Js.replace_quote_comma (f ++ rest) = f ++ Js.replace_quote_comma rest.
Proof.
  unfold no_unit. induction f as [|c f IH]; [reflexivity|].
  cbn [forallb app]. intro H. apply andb_true_iff in H.
  destruct H as [Hc H]. apply negb_true_iff in Hc.
  rewrite <- (IH H). cbn [Js.replace_quote_comma]. rewrite Hc.
  destruct (f ++ rest); reflexivity.
Qed.

Lemma replace_quote_comma_quote (x : Js.jsstring) :
  Js.starts_with [44%N] x = false ->
  Js.replace_quote_comma (34%N :: x) = 34%N :: Js.replace_quote_comma x.
Proof.
  destruct x as [|d x]; [reflexivity|]. cbn [Js.starts_with].
  rewrite andb_true_r. intro H. cbn [Js.replace_quote_comma].
  rewrite (N.eqb_sym d 44), H, andb_false_r. reflexivity.
Qed.

Lemma starts_with_comma_app (f rest : Js.jsstring) :
  Js.starts_with [44%N] f = false ->
  Js.starts_with [44%N] (f ++ 34%N :: rest) = false.
Proof. destruct f; [reflexivity|exact (fun H => H)]. Qed.

Lemma csv_line_unquoted (fields : list Js.jsstring) :
  forallb plain fields = true ->
  Js.remove_quotes (Js.replace_quote_comma (csv_line fields)) =
  join_fields fields.
Proof.
  induction fields as [|f fields IH]; [reflexivity|].
  cbn [forallb]. intro H. apply andb_true_iff in H. destruct H as [Hf H].
  destruct (plain_no_unit f Hf) as (H34 & H39 & _ & _ & H44).
  cbn [csv_line join_fields].
  rewrite replace_quote_comma_quote by (apply starts_with_comma_app, H44).
  rewrite replace_quote_comma_skip by exact H34.
  destruct fields as [|g fields].
  - cbn. unfold Js.remove_quotes in *. rewrite filter_app. cbn.
    fold (Js.remove_quotes f). rewrite remove_quotes_plain by assumption.
    reflexivity.
  - change (Js.replace_quote_comma (34%N :: 44%N :: csv_line (g :: fields)))
      with (34%N :: 59%N :: Js.replace_quote_comma (csv_line (g :: fields))).
    specialize (IH H). unfold Js.remove_quotes in *.
    cbn [filter]. rewrite filter_app. cbn [filter]. cbn [N.eqb Pos.eqb orb negb].
    rewrite IH. fold (Js.remove_quotes f).
    rewrite remove_quotes_plain by assumption. reflexivity.
Qed.

Lemma split_char_nonempty (sep : N) (s : Js.jsstring) :
  Js.split_char sep s <> [].
Proof.
  induction s as [|c s IH]; cbn; [discriminate|].
  destruct (c =? sep)%N; [discriminate|].
  destruct (Js.split_char sep s); [contradiction|discriminate].
Qed.

Lemma split_char_skip (sep : N) (f rest : Js.jsstring) :
  no_unit sep f ->
  Js.split_char sep (f ++ rest) =
  match Js.split_char sep rest with
  | x :: xs => (f ++ x) :: xs
  | [] => [f]
  end.
Proof.
  unfold no_unit. induction f as [|c f IH]; cbn [forallb app].
  - intros _. destruct (Js.split_char sep rest) eqn:E; [|reflexivity].
    destruct (split_char_nonempty _ _ E).
  - intro H. apply andb_true_iff in H. destruct H as [Hc H].
    apply negb_true_iff in Hc. cbn [Js.split_char]. rewrite Hc, (IH H).
    destruct (Js.split_char sep rest); reflexivity.
Qed.

Lemma split_join_fields (fields : list Js.jsstring) :
  fields <> [] -> forallb plain fields = true ->
  Js.split_char 59 (join_fields fields) = fields.
Proof.
  induction fields as [|f fields IH]; [congruence|]. intros _.
  cbn [forallb]. intro H. apply andb_true_iff in H. destruct H as [Hf H].
  destruct (plain_no_unit f Hf) as (_ & _ & H59 & _).
  cbn [join_fields]. rewrite split_char_skip by exact H59.
  destruct fields as [|g fields].
  - cbn. rewrite app_nil_r. reflexivity.
  - cbn [Js.split_char]. cbn [N.eqb Pos.eqb]. rewrite app_nil_r.
    rewrite IH; [reflexivity|discriminate|exact H].
Qed.

(** The values [taskList] reads from a CSV line of plain fields are the
    fields. *)
Lemma line_values_csv (fields : list Js.jsstring) :
  fields <> [] -> forallb plain fields = true ->
  Cmd.line_values (csv_line fields) = fields.
Proof.
  intros Hne Hp. unfold Cmd.line_values.
  rewrite csv_line_unquoted by exact Hp. apply split_join_fields; assumption.
Qed.

Lemma csv_line_no_cr (fields : list Js.jsstring) :
  forallb plain fields = true -> no_unit 13 (csv_line fields).
Proof.
  unfold no_unit. induction fields as [|f fields IH]; [reflexivity|].
  cbn [forallb]. intro H. apply andb_true_iff in H. destruct H as [Hf H].
  destruct (plain_no_unit f Hf) as (_ & _ & _ & H13 & _).
  cbn [csv_line forallb]. cbn [N.eqb Pos.eqb negb andb].
  rewrite forallb_app. unfold no_unit in H13. rewrite H13.
  cbn [forallb andb N.eqb Pos.eqb negb].
  destruct fields as [|g fields]; [reflexivity|].
  cbn [forallb N.eqb Pos.eqb negb andb]. apply IH, H.
Qed.

Lemma split_crlf_line (l rest : Js.jsstring) :
  no_unit 13 l ->
  Js.split_crlf (l ++ 13%N :: 10%N :: rest) = l :: Js.split_crlf rest.
Proof.
  unfold no_unit. induction l as [|c l IH]; [reflexivity|].
  cbn [forallb app]. intro H. apply andb_true_iff in H.
  destruct H as [Hc H]. apply negb_true_iff in Hc.
  cbn [Js.split_crlf]. rewrite Hc. cbn [andb].
  rewrite (IH H).
  destruct (l ++ 13%N :: 10%N :: rest) eqn:E; [|reflexivity].
  destruct l; discriminate.
Qed.

Lemma split_crlf_csv_output (lines : list (list Js.jsstring)) :
  forallb (forallb plain) lines = true ->
  Js.split_crlf (csv_output lines) = map csv_line lines ++ [[]].
Proof.
  unfold csv_output. induction lines as [|l lines IH]; [reflexivity|].
  cbn [forallb map List.concat]. intro H. apply andb_true_iff in H.
  destruct H as [Hl H]. rewrite <- app_assoc. cbn [app].
  rewrite split_crlf_line by (apply csv_line_no_cr, Hl).
  rewrite (IH H). reflexivity.
Qed.

Lemma taskList_loop_rows (Number : option Js.jsstring -> Cmd.number)
    (verbose : bool) (h : list Js.jsstring) (rows : list (list Js.jsstring)) :
  forallb (fun r => negb (Nat.eqb (List.length r) 0) && forallb plain r) rows
    = true ->
  Cmd.taskList_loop Number verbose (Some h) (map csv_line rows ++ [[]]) =
  map (fun r => Cmd.process_of Number verbose (Cmd.fill_record h r [])) rows.
Proof.
  induction rows as [|r rows IH]; [reflexivity|].
  cbn [forallb map]. intro H. apply andb_true_iff in H. destruct H as [Hr H].
  apply andb_true_iff in Hr. destruct Hr as [Hn Hp].
  assert (Hne : r <> []) by (destruct r; [discriminate|discriminate]).
  specialize (IH H).
  destruct (map csv_line rows ++ [[]]) as [|next p] eqn:E.
  - destruct (map csv_line rows); discriminate.
  - cbn [app]. rewrite E, taskList_loop_row, IH.
    rewrite line_values_csv by assumption. reflexivity.
Qed.

Lemma process_of_plain_row (Number : option Js.jsstring -> Cmd.number)
    (verbose : bool) (r : TaskRow) :
  plain_row verbose r = true ->
  Cmd.process_of Number verbose
    (Cmd.fill_record (map Js.remove_spaces (tasklist_header verbose))
       (row_fields verbose r) []) =
  process_of_row Number verbose r.
Proof.
  unfold plain_row, process_of_row. destruct r as [a b c d e f g h i].
  destruct verbose; cbn [row_fields app forallb]; intro H;
    repeat (apply andb_true_iff in H; destruct H as [? H]);
    repeat match goal with
           | Hp : plain ?x = true |- _ =>
               let H1 := fresh in let H2 := fresh in
               destruct (plain_no_unit x Hp) as (H1 & H2 & _);
               pose proof (remove_quotes_plain x H1 H2); clear Hp H1 H2
           end;
    cbn [Cmd.fill_record tl hd tasklist_header app map];
    repeat match goal with E : Js.remove_quotes _ = _ |- _ => rewrite E; clear E end;
    reflexivity.
Qed.

(** X9: [taskList] reads the CSV output of [tasklist] back. When every
    field of every process is plain (no double quote, single quote,
    semicolon or carriage return, no comma at its start), the objects
    returned carry, in order, the fields of the processes listed: image
    name, PID, session name, session number and memory usage, and with
    [verbose] also status, user name, CPU time and window title. *)
Theorem taskList_reads_tasklist_output
    (Number : option Js.jsstring -> Cmd.number)
    (exec : Js.jsstring -> Cmd.ExecOutcome) (verbose : bool)
    (rows : list TaskRow) (stderr : Js.jsstring) :
  exec (Cmd.taskList_command verbose) =
    Cmd.Resolved (tasklist_output verbose rows) stderr ->
  forallb (plain_row verbose) rows = true ->
  Cmd.taskList Number exec verbose =
  inr (map (process_of_row Number verbose) rows).
Proof.
  intros He Hp. unfold Cmd.taskList. rewrite He. f_equal.
  unfold tasklist_output.
  assert (Hh : forallb plain (tasklist_header verbose) = true)
    by (destruct verbose; vm_compute; reflexivity).
  assert (Hr : forallb (forallb plain) (map (row_fields verbose) rows) = true).
  { rewrite forallb_forall in *. intros x Hx. apply in_map_iff in Hx.
    destruct Hx as (r & <- & Hr). apply (Hp r Hr). }
  rewrite split_crlf_csv_output by (cbn [forallb]; rewrite Hh, Hr; reflexivity).
  cbn [map app].
  destruct (map csv_line (map (row_fields verbose) rows) ++ [[]])
    as [|next p] eqn:E.
  { destruct (map csv_line (map (row_fields verbose) rows)); discriminate. }
  rewrite taskList_loop_header, <- E.
  rewrite line_values_csv
    by first [ exact Hh | destruct verbose; discriminate ].
  rewrite taskList_loop_rows.
  - rewrite map_map. apply map_ext_in. intros r Hin.
    apply process_of_plain_row. rewrite forallb_forall in Hp. auto.
  - rewrite forallb_forall in *. intros x Hx. rewrite (Hr x Hx), andb_true_r.
    apply in_map_iff in Hx. destruct Hx as (r & <- & _).
    destruct verbose; reflexivity.
Qed.

Lemma taskList_reads_tasklist_output_witness :
  forallb (plain_row true) [readme_row] = true /\
  Cmd.taskList (fun _ => Cmd.NaN)
    (fun _ => Cmd.Resolved (tasklist_output true [readme_row]) []) true =
  inr (map (process_of_row (fun _ => Cmd.NaN) true) [readme_row]).
Proof.
  assert (Hp : forallb (plain_row true) [readme_row] = true)
    by (vm_compute; reflexivity).
  split; [exact Hp|].
  apply (taskList_reads_tasklist_output (fun _ => Cmd.NaN)
           (fun _ => Cmd.Resolved (tasklist_output true [readme_row]) [])
           true [readme_row] []); [reflexivity|exact Hp].
Defined.

(** * [Logger.log] *)

Lemma trimStart_nil (s : Js.jsstring) :
  Js.trimStart s = [] <-> forallb Js.is_whitespace s = true.
Proof.
  induction s as [|c s IH]; cbn [Js.trimStart forallb].
  - split; reflexivity.
  - destruct (Js.is_whitespace c); cbn [andb]; [exact IH|].
    split; discriminate.
Qed.

Lemma trimStart_head (s : Js.jsstring) :
  match Js.trimStart s with
  | [] => True
  | c :: _ => Js.is_whitespace c = false
  end.
Proof.
  induction s as [|c s IH]; cbn [Js.trimStart]; [exact I|].
  destruct (Js.is_whitespace c) eqn:E; [exact IH|exact E].
Qed.

Lemma forallb_rev {A} (P : A -> bool) (l : list A) :
  forallb P (rev l) = forallb P l.
Proof.
  induction l as [|x l IH]; [reflexivity|]. cbn [rev forallb].
  rewrite forallb_app, IH. cbn. rewrite andb_true_r. apply andb_comm.
Qed.

(** [msg.trim()] is empty exactly when [msg] is made of white space. *)
Lemma trim_blank (s : Js.jsstring) :
  List.length (Js.trim s) = 0%nat <-> forallb Js.is_whitespace s = true.
Proof.
  unfold Js.trim. rewrite length_rev. split.
  - intro H. apply length_zero_iff_nil, trimStart_nil in H.
    rewrite forallb_rev in H. generalize (trimStart_head s).
    destruct (Js.trimStart s) as [|c r] eqn:E.
    + intros _. apply trimStart_nil, E.
    + cbn in H. intro Hc. rewrite Hc in H. discriminate.
  - intro H. apply trimStart_nil in H. rewrite H. reflexivity.
Qed.

(** X10: [log] hands no command to the operating system exactly when the
    message consists of white space only (or is empty); the promise is
    then fulfilled.  For every other message the first command it issues
    is [eventcreate] with the message in which the line breaks are
    replaced. *)
Theorem log_skips_blank_messages
    (NumberToString : Cmd.number -> Js.jsstring)
    (exec elevate : Js.jsstring -> option EventLog.Thrown)
    (config : EventLog.LoggerConfig)
    (type : EventLog.EntryType) (msg : Js.jsstring) (id : Cmd.number) :
  (fst (EventLog.log NumberToString exec elevate config type msg id) = [] <->
   forallb Js.is_whitespace msg = true) /\
  (forallb Js.is_whitespace msg = true ->
   EventLog.log NumberToString exec elevate config type msg id =
   ([], EventLog.Fulfilled)) /\
  (forallb Js.is_whitespace msg = false ->
   hd_error (fst (EventLog.log NumberToString exec elevate config type msg id)) =
   Some (EventLog.Exec
           (EventLog.eventcreate NumberToString config type
              (Js.replace_newlines msg) id))).
Proof.
  unfold EventLog.log. split; [|split; intro H].
  - destruct (List.length (Js.trim msg) =? 0)%nat eqn:E.
    + apply Nat.eqb_eq, trim_blank in E. split; auto.
    + split.
      * destruct (exec _) as [[m|]|]; try discriminate.
        destruct (Js.includes _ m); [|discriminate].
        destruct (elevate _); discriminate.
      * intro H. apply trim_blank in H. rewrite H in E. discriminate.
  - apply trim_blank in H. rewrite H. reflexivity.
  - destruct (List.length (Js.trim msg) =? 0)%nat eqn:E.
    + apply Nat.eqb_eq, trim_blank in E. congruence.
    + destruct (exec _) as [[m|]|]; [|reflexivity|reflexivity].
      destruct (Js.includes _ m); [|reflexivity].
      destruct (elevate _); reflexivity.
Qed.

Lemma replace_newlines_pair (s : Js.jsstring) :
  (forallb (fun c => negb (is_line_break c)) (Js.replace_newlines s) = true /\
   filter (fun c => negb (is_line_break c || (c =? 12)%N))
     (Js.replace_newlines s) =
   filter (fun c => negb (is_line_break c || (c =? 12)%N)) s /\
   (List.length (Js.replace_newlines s) <= List.length s)%nat) /\
  forall c,
    forallb (fun c => negb (is_line_break c))
      (Js.replace_newlines (c :: s)) = true /\
    filter (fun c => negb (is_line_break c || (c =? 12)%N))
      (Js.replace_newlines (c :: s)) =
    filter (fun c => negb (is_line_break c || (c =? 12)%N)) (c :: s) /\
    (List.length (Js.replace_newlines (c :: s)) <= List.length (c :: s))%nat.
Proof.
  induction s as [|d s [IH1 IH2]].
  - split; [repeat split; auto|]. intro c. cbn [Js.replace_newlines].
    unfold is_line_break.
    destruct (c =? 13)%N eqn:E13; [|destruct (c =? 10)%N eqn:E10];
      cbn; rewrite ?E13, ?E10; cbn; repeat split; auto.
  - split; [apply IH2|]. intro c.
    destruct IH1 as (A1 & A2 & A3). destruct (IH2 d) as (B1 & B2 & B3).
    cbn [Js.replace_newlines] in *. unfold is_line_break in *.
    destruct (c =? 13)%N eqn:E13; [|destruct (c =? 10)%N eqn:E10].
    + destruct (d =? 10)%N eqn:D10.
      * cbn [forallb filter List.length]. cbn [N.eqb Pos.eqb orb negb andb].
        rewrite E13, D10, A1, A2. cbn. rewrite orb_true_r. cbn.
        repeat split; auto. lia.
      * cbn [forallb filter List.length] in *. cbn [N.eqb Pos.eqb orb negb andb].
        rewrite E13. cbn [orb negb]. rewrite B1, B2. repeat split; auto. lia.
    + destruct (d =? 13)%N eqn:D13.
      * cbn [forallb filter List.length]. cbn [N.eqb Pos.eqb orb negb andb].
        rewrite E13, E10, D13, A1, A2. cbn. repeat split; auto. lia.
      * cbn [forallb filter List.length] in *. cbn [N.eqb Pos.eqb orb negb andb].
        rewrite E13, E10. cbn [orb negb]. rewrite B1, B2. repeat split; auto. lia.
    + cbn [forallb filter List.length] in *. rewrite E13, E10. cbn [orb negb andb].
      rewrite B1, B2. repeat split; auto. lia.
Qed.

Lemma replace_newlines_none (s : Js.jsstring) :
  forallb (fun c => negb (is_line_break c)) s = true ->
  Js.replace_newlines s = s.
Proof.
  induction s as [|c s IH]; [reflexivity|]. cbn [forallb]. intro H.
  apply andb_true_iff in H. destruct H as [Hc H].
  apply negb_true_iff, orb_false_iff in Hc. destruct Hc as [H13 H10].
  cbn [Js.replace_newlines]. rewrite H13, H10, (IH H). reflexivity.
Qed.

(** X11: the message [log] puts into its command contains no carriage
    return and no line feed; apart from line breaks and the form feeds
    that replace them it is the message given, unit by unit, so nothing
    else (a double quote, say) is removed or escaped; it is never longer
    than the message, and equal to it when the message has no line
    break. *)
Theorem log_message_has_no_line_break (msg : Js.jsstring) :
  forallb (fun c => negb (is_line_break c)) (Js.replace_newlines msg) = true /\
  filter (fun c => negb (is_line_break c || (c =? 12)%N))
    (Js.replace_newlines msg) =
  filter (fun c => negb (is_line_break c || (c =? 12)%N)) msg /\
  (List.length (Js.replace_newlines msg) <= List.length msg)%nat /\
  (forallb (fun c => negb (is_line_break c)) msg = true ->
   Js.replace_newlines msg = msg).
Proof.
  destruct (replace_newlines_pair msg) as [(H1 & H2 & H3) _].
  repeat split; auto. apply replace_newlines_none.
Qed.
